(** * aare-edge: the HIPAA Safe-Harbor compliance verifier

    A shallow embedding of [src/verification/rules.py] and
    [src/verification/verifier.py], followed by the properties of the
    decision engine, the violation explainer and the entry points. *)

From Stdlib Require Import List String Ascii ZArith Bool Lia Permutation.
From Stdlib Require Import DecimalString PrimFloat.
Import ListNotations.
Local Open Scope string_scope.
Local Open Scope list_scope.

(** String concatenation, written apart from list append. *)
Notation "a ^ b" := (String.append a b) : string_scope.

(** ** The fragment of Python the two modules rely on *)

Module Py.

(** [sep.join(parts)] *)
Fixpoint join (sep : string) (parts : list string) : string :=
  match parts with
  | [] => ""
  | [p] => p
  | p :: rest => p ^ sep ^ join sep rest
  end.

(** [s * n] on a string *)
Fixpoint repeat_str (s : string) (n : nat) : string :=
  match n with
  | O => ""
  | S k => s ^ repeat_str s k
  end.

(** [str(i)] for an [int] *)
Definition str_int (i : Z) : string := NilZero.string_of_int (Z.to_int i).

Definition newline : string := String (ascii_of_nat 10) "".

(** [x in xs] for a list or a set of strings *)
Definition str_in (x : string) (xs : list string) : bool :=
  existsb (String.eqb x) xs.

(** [len(xs) > 0], the truth value of a list *)
Definition truthy {A : Type} (xs : list A) : bool :=
  match xs with [] => false | _ :: _ => true end.

(** A [dict] with string keys keeps its items in insertion order;
    [d[k] = v] overwrites the value of an existing key in place. *)
Definition dict (V : Type) : Type := list (string * V).

Fixpoint dict_set {V : Type} (d : dict V) (k : string) (v : V) : dict V :=
  match d with
  | [] => [(k, v)]
  | (k', v') :: rest =>
      if String.eqb k' k then (k, v) :: rest else (k', v') :: dict_set rest k v
  end.

Fixpoint dict_get {V : Type} (d : dict V) (k : string) : option V :=
  match d with
  | [] => None
  | (k', v) :: rest => if String.eqb k' k then Some v else dict_get rest k
  end.

(** What a raised object is an instance of.  [except Exception] catches the
    instances of [Exception]; [KeyboardInterrupt], [SystemExit] and
    [GeneratorExit] derive from [BaseException] only. *)
Inductive exn_class : Type :=
| AttributeError | TypeError | KeyError | ValueError | RuntimeError
| JSONDecodeError | KeyboardInterrupt | SystemExit | GeneratorExit.

Definition is_Exception (c : exn_class) : bool :=
  match c with
  | KeyboardInterrupt | SystemExit | GeneratorExit => false
  | _ => true
  end.

(** A raised exception: its class and [str(e)]. *)
Record exn : Type := Exn { exn_cls : exn_class; exn_str : string }.

(** The outcome of a call: a returned value or a raised exception. *)
Inductive outcome (A : Type) : Type :=
| Return (a : A)
| Raise (e : exn).
Arguments Return {A} a.
Arguments Raise {A} e.

Definition bind {A B : Type} (c : outcome A) (k : A -> outcome B) : outcome B :=
  match c with
  | Return a => k a
  | Raise e => Raise e
  end.

(** [try: body / except Exception as e: handler(e)] *)
Definition try_except_Exception {A : Type}
    (body : outcome A) (handler : exn -> outcome A) : outcome A :=
  match body with
  | Return a => Return a
  | Raise e => if is_Exception (exn_cls e) then handler e else Raise e
  end.

(** [list(set(xs))].  The language leaves the iteration order of a set
    unspecified (for strings it changes with the hash seed of the process);
    within one process it is a function of the elements inserted.  What is
    guaranteed is that every distinct element comes out exactly once. *)
Record SetOrder : Type := {
  list_set : list string -> list string;
  list_set_NoDup : forall xs, NoDup (list_set xs);
  list_set_In : forall xs x, In x (list_set xs) <-> In x xs
}.

End Py.

Notation "x <- c ;; k" := (Py.bind c (fun x => k))
  (at level 61, c at next level, right associativity).

(** ** The fragment of the Z3 Python API the verifier calls

    Only Boolean constants, equality, negation and disjunction are built,
    so a model is a truth assignment to the named constants and [check]
    decides satisfiability by exhausting the assignments of the constants
    that occur in the assertions. *)

Module Z3.

#[warnings="-register-all"]
Inductive expr : Type :=
| Bool (name : string)          (* Bool(name) *)
| BoolVal (b : bool)            (* a Python bool coerced to a Z3 value *)
| Eq (a b : expr)               (* a == b *)
| Not (a : expr)                (* Not(a) *)
| Or (args : list expr).        (* Or(args) *)

Definition model : Type := string -> bool.

Fixpoint eval (m : model) (e : expr) : bool :=
  match e with
  | Bool x => m x
  | BoolVal b => b
  | Eq a b => Bool.eqb (eval m a) (eval m b)
  | Not a => negb (eval m a)
  | Or args => existsb (eval m) args
  end.

(** The constants occurring in an expression. *)
Fixpoint consts (e : expr) : list string :=
  match e with
  | Bool x => [x]
  | BoolVal _ => []
  | Eq a b => consts a ++ consts b
  | Not a => consts a
  | Or args => flat_map consts args
  end.

(** All assertions hold in [m]; stops at the first that fails. *)
Fixpoint holds (m : model) (fs : list expr) : bool :=
  match fs with
  | [] => true
  | f :: rest => if eval m f then holds m rest else false
  end.

Definition update (m : model) (x : string) (b : bool) : model :=
  fun y => if String.eqb y x then b else m y.

(** Exhaustive search over the assignments of [xs], extending [m]. *)
Fixpoint search (xs : list string) (m : model) (fs : list expr) : bool :=
  match xs with
  | [] => holds m fs
  | x :: rest =>
      if search rest (update m x false) fs then true
      else search rest (update m x true) fs
  end.

Inductive CheckSatResult : Type := sat | unsat | unknown.

(** A solver is its stack of scopes, innermost first; each scope holds the
    assertions added since the matching [push]. *)
Definition Solver : Type := list (list expr).

(** [Solver()] *)
Definition Solver_new : Solver := [[]].

(** [solver.add(e)] *)
Definition add (s : Solver) (e : expr) : Solver :=
  match s with
  | [] => [[e]]
  | top :: below => (top ++ [e]) :: below
  end.

(** [solver.push()] *)
Definition push (s : Solver) : Solver := [] :: s.

(** [solver.pop()] *)
Definition pop (s : Solver) : Solver :=
  match s with
  | _ :: (below :: rest) => below :: rest
  | _ => s
  end.

(** [solver.assertions()] *)
Definition assertions (s : Solver) : list expr := List.concat (rev s).

(** [solver.check()] *)
Definition check (s : Solver) : CheckSatResult :=
  let fs := assertions s in
  if search (nodup string_dec (flat_map consts fs)) (fun _ => false) fs
  then sat else unsat.

End Z3.

(** ** rules.py *)

Module Rules.

(** [@dataclass class PHIDetection] *)
Record PHIDetection : Type := {
  category : string;
  value : string;
  start : Z;
  end_ : Z;
  confidence : float
}.

(** [@dataclass class HIPAARule] *)
Record HIPAARule : Type := {
  id : string;
  name : string;
  description : string;
  categories : list string;
  prohibition_type : string;
  condition : option string
}.

(** One entry of [config["categories"]], with the two keys rules.py reads:
    [cat["name"]] and [cat.get("prohibited", False)]. *)
Record Category : Type := {
  cat_name : string;
  cat_prohibited : option bool
}.

Record Config : Type := { config_categories : list Category }.

(** Modelled from the spec: the policy configuration document
    (configs/hipaa-v1.json, returned by [load_hipaa_config] of
    src/data/label_mapper.py): exactly 18 categories, in id order 1..18,
    each carrying the prohibited flag; the names are those of the rule
    catalogue below and of tests/test_rules.py. *)
Definition hipaa_v1_names : list string :=
  [ "NAMES"; "GEOGRAPHIC_SUBDIVISIONS"; "DATES"; "PHONE_NUMBERS";
    "FAX_NUMBERS"; "EMAIL_ADDRESSES"; "SSN"; "MEDICAL_RECORD_NUMBERS";
    "HEALTH_PLAN_BENEFICIARY_NUMBERS"; "ACCOUNT_NUMBERS";
    "CERTIFICATE_LICENSE_NUMBERS"; "VEHICLE_IDENTIFIERS";
    "DEVICE_IDENTIFIERS"; "WEB_URLS"; "IP_ADDRESSES";
    "BIOMETRIC_IDENTIFIERS"; "PHOTOGRAPHIC_IMAGES";
    "ANY_OTHER_UNIQUE_IDENTIFYING_NUMBER" ].

Definition hipaa_v1 : Config :=
  {| config_categories :=
       map (fun n => {| cat_name := n; cat_prohibited := Some true |})
           hipaa_v1_names |}.

(** The table at the head of [_build_rules]. *)
Definition absolute_prohibitions : list (string * string * string) :=
  [ ("R1", "NAMES", "Names must be removed");
    ("R2", "GEOGRAPHIC_SUBDIVISIONS", "Geographic data smaller than state must be removed");
    ("R3", "DATES", "Dates (except year) must be removed");
    ("R4", "PHONE_NUMBERS", "Phone numbers must be removed");
    ("R5", "FAX_NUMBERS", "Fax numbers must be removed");
    ("R6", "EMAIL_ADDRESSES", "Email addresses must be removed");
    ("R7", "SSN", "Social Security numbers must be removed");
    ("R8", "MEDICAL_RECORD_NUMBERS", "Medical record numbers must be removed");
    ("R9", "HEALTH_PLAN_BENEFICIARY_NUMBERS", "Health plan beneficiary numbers must be removed");
    ("R10", "ACCOUNT_NUMBERS", "Account numbers must be removed");
    ("R11", "CERTIFICATE_LICENSE_NUMBERS", "Certificate/license numbers must be removed");
    ("R12", "VEHICLE_IDENTIFIERS", "Vehicle identifiers must be removed");
    ("R13", "DEVICE_IDENTIFIERS", "Device identifiers must be removed");
    ("R14", "WEB_URLS", "Web URLs must be removed");
    ("R15", "IP_ADDRESSES", "IP addresses must be removed");
    ("R16", "BIOMETRIC_IDENTIFIERS", "Biometric identifiers must be removed");
    ("R17", "PHOTOGRAPHIC_IMAGES", "Full-face photos must be removed");
    ("R18", "ANY_OTHER_UNIQUE_IDENTIFYING_NUMBER", "Other unique identifiers must be removed") ].

Definition conditional_rules : list HIPAARule :=
  [ {| id := "R19"; name := "Age Over 89";
       description := "Ages over 89 must be aggregated to 90+";
       categories := ["DATES"];
       prohibition_type := "conditional";
       condition := Some "age > 89" |};
    {| id := "R20"; name := "ZIP Code Population";
       description := "ZIP codes with population < 20,000 must be zeroed";
       categories := ["GEOGRAPHIC_SUBDIVISIONS"];
       prohibition_type := "conditional";
       condition := Some "zip_population < 20000" |} ].

Definition _build_rules : list HIPAARule :=
  let rules :=
    fold_left
      (fun rules '(rule_id, category, description) =>
         rules ++ [ {| id := rule_id;
                       name := "Prohibition of " ^ category;
                       description := description;
                       categories := [category];
                       prohibition_type := "absolute";
                       condition := None |} ])
      absolute_prohibitions [] in
  rules ++ conditional_rules.

(** The state of a [HIPAARules] object: [self.config] and [self._rules]. *)
Record HIPAARules : Type := {
  config : Config;
  _rules : list HIPAARule
}.

(** [HIPAARules.__init__], given the loaded configuration. *)
Definition HIPAARules_init (cfg : Config) : HIPAARules :=
  {| config := cfg; _rules := _build_rules |}.

Definition get_rules (self : HIPAARules) : list HIPAARule := _rules self.

Definition get_rule_by_id (self : HIPAARules) (rule_id : string)
  : option HIPAARule :=
  find (fun rule => String.eqb (id rule) rule_id) (_rules self).

Definition get_rules_for_category (self : HIPAARules) (category : string)
  : list HIPAARule :=
  filter (fun r => Py.str_in category (categories r)) (_rules self).

Definition get_prohibited_categories (self : HIPAARules) : list string :=
  map cat_name
      (filter (fun cat => match cat_prohibited cat with
                          | Some b => b
                          | None => false
                          end)
              (config_categories (config self))).

Definition is_prohibited (self : HIPAARules) (category : string) : bool :=
  Py.str_in category (get_prohibited_categories self).

Definition create_z3_constraints (self : HIPAARules)
    (detections : list PHIDetection) (solver : Z3.Solver)
  : Py.dict Z3.expr * Z3.Solver :=
  let category_vars :=
    fold_left (fun d category =>
                 Py.dict_set d category (Z3.Bool (category ^ "_detected")))
              (get_prohibited_categories self) [] in
  let detected_categories := map category detections in
  let solver :=
    fold_left (fun s '(category, var) =>
                 if Py.str_in category detected_categories
                 then Z3.add s (Z3.Eq var (Z3.BoolVal true))
                 else Z3.add s (Z3.Eq var (Z3.BoolVal false)))
              category_vars solver in
  (category_vars, solver).

Definition add_compliance_rule (self : HIPAARules) (solver : Z3.Solver)
    (category_vars : Py.dict Z3.expr) : Z3.Solver :=
  let prohibited_detected :=
    map snd (filter (fun '(cat, _) => is_prohibited self cat) category_vars) in
  if Py.truthy prohibited_detected
  then Z3.add solver (Z3.Not (Z3.Or prohibited_detected))
  else solver.

(** One element of [violated_rules]. *)
Record RuleRef : Type := {
  r_id : string;
  r_name : string;
  r_description : string
}.

(** One element of [violations]. *)
Record Violation : Type := {
  v_category : string;
  v_value : string;
  v_location : Z * Z;           (* {"start": ..., "end": ...} *)
  v_confidence : float;
  violated_rules : list RuleRef
}.

(** The dictionary [create_violation_explanation] returns. *)
Record ViolationReport : Type := {
  num_violations : nat;
  violations : list Violation;
  categories_violated : list string
}.

Definition create_violation_explanation (O : Py.SetOrder)
    (detections : list PHIDetection) (rules : HIPAARules) : ViolationReport :=
  let violations :=
    fold_left
      (fun violations detection =>
         if is_prohibited rules (category detection) then
           let applicable_rules :=
             get_rules_for_category rules (category detection) in
           violations ++
           [ {| v_category := category detection;
                v_value := value detection;
                v_location := (start detection, end_ detection);
                v_confidence := confidence detection;
                violated_rules :=
                  map (fun r => {| r_id := id r; r_name := name r;
                                   r_description := description r |})
                      applicable_rules |} ]
         else violations)
      detections [] in
  {| num_violations := List.length violations;
     violations := violations;
     categories_violated := Py.list_set O (map v_category violations) |}.

End Rules.

(** ** Decoded JSON, as the wire constructor sees it *)

Module Json.

(** What [json.loads] returns, which is also what a caller may pass in
    directly: a [dict] keeps its members in insertion order. *)
#[warnings="-register-all"]
Inductive json : Type :=
| JNull
| JBool (b : bool)
| JInt (i : Z)
| JFloat (f : float)
| JStr (s : string)
| JList (items : list json)
| JDict (members : list (string * json)).

Definition type_name (j : json) : string :=
  match j with
  | JNull => "NoneType"
  | JBool _ => "bool"
  | JInt _ => "int"
  | JFloat _ => "float"
  | JStr _ => "str"
  | JList _ => "list"
  | JDict _ => "dict"
  end.

(** [obj.get(key, default)]: only a [dict] has the method. *)
Definition get (obj : json) (key : string) (default : json)
  : Py.outcome json :=
  match obj with
  | JDict members =>
      Py.Return (match Py.dict_get members key with
                 | Some v => v
                 | None => default
                 end)
  | _ => Py.Raise (Py.Exn Py.AttributeError
           ("'" ^ type_name obj ^ "' object has no attribute 'get'"))
  end.

(** [obj[key]] with a string key. *)
Definition getitem (obj : json) (key : string) : Py.outcome json :=
  match obj with
  | JDict members =>
      match Py.dict_get members key with
      | Some v => Py.Return v
      | None => Py.Raise (Py.Exn Py.KeyError ("'" ^ key ^ "'"))
      end
  | JStr _ =>
      Py.Raise (Py.Exn Py.TypeError "string indices must be integers")
  | JList _ =>
      Py.Raise (Py.Exn Py.TypeError
                  "list indices must be integers or slices, not str")
  | _ => Py.Raise (Py.Exn Py.TypeError
           ("'" ^ type_name obj ^ "' object is not subscriptable"))
  end.

Fixpoint chars (s : string) : list json :=
  match s with
  | EmptyString => []
  | String c rest => JStr (String c "") :: chars rest
  end.

(** [for e in obj]: a list yields its items, a dict its keys, a string its
    characters; nothing else is iterable. *)
Definition iter (obj : json) : Py.outcome (list json) :=
  match obj with
  | JList items => Py.Return items
  | JDict members => Py.Return (map (fun kv => JStr (fst kv)) members)
  | JStr s => Py.Return (chars s)
  | _ => Py.Raise (Py.Exn Py.TypeError
           ("'" ^ type_name obj ^ "' object is not iterable"))
  end.

(** [str(v)], as an f-string field writes [v].  The text of a float and
    the repr of a list or dict are left to [repr]. *)
Definition str (repr : json -> string) (v : json) : string :=
  match v with
  | JNull => "None"
  | JBool true => "True"
  | JBool false => "False"
  | JInt i => Py.str_int i
  | JStr s => s
  | _ => repr v
  end.

End Json.

(** ** verifier.py *)

Module Verifier.
Import Rules.

(** [class ComplianceStatus(Enum)] *)
Inductive ComplianceStatus : Type := COMPLIANT | VIOLATION | ERROR.

Definition status_value (s : ComplianceStatus) : string :=
  match s with
  | COMPLIANT => "compliant"
  | VIOLATION => "violation"
  | ERROR => "error"
  end.

(** [@dataclass class VerificationResult] *)
Record VerificationResult : Type := {
  status : ComplianceStatus;
  entities : list PHIDetection;
  proof : string;
  violations : option ViolationReport;
  metadata : Py.dict string
}.

(** The state of a [HIPAAVerifier] object: [self.rules]. *)
Record HIPAAVerifier : Type := { rules : HIPAARules }.

(** [HIPAAVerifier.__init__], given the loaded configuration. *)
Definition HIPAAVerifier_init (cfg : Config) : HIPAAVerifier :=
  {| rules := HIPAARules_init cfg |}.

(** The lines appended for one violation in the violation branch. *)
Definition violation_lines (v : Violation) : list string :=
  let lines := [ "Category: " ^ v_category v ] in
  let lines := lines ++ [ "  Value: " ^ v_value v ] in
  let lines := lines ++ [ "  Position: " ^ Py.str_int (fst (v_location v))
                            ^ "-" ^ Py.str_int (snd (v_location v)) ] in
  let lines :=
    fold_left (fun lines rule =>
                 lines ++ [ "  Violated: " ^ r_id rule ^ " - "
                              ^ r_description rule ])
              (violated_rules v) lines in
  lines ++ [ "" ].

Definition verify (O : Py.SetOrder) (self : HIPAAVerifier)
    (entities : list PHIDetection) : VerificationResult :=
  let solver := Z3.Solver_new in
  let '(category_vars, solver) :=
    create_z3_constraints (rules self) entities solver in
  let prohibited_categories := get_prohibited_categories (rules self) in
  let prohibited_vars :=
    flat_map (fun cat => match Py.dict_get category_vars cat with
                         | Some var => [var]
                         | None => []
                         end)
             prohibited_categories in
  let solver := Z3.push solver in
  let solver :=
    if Py.truthy prohibited_vars
    then Z3.add solver (Z3.Not (Z3.Or prohibited_vars))
    else solver in
  let result := Z3.check solver in
  let solver := Z3.pop solver in
  match result with
  | Z3.unsat =>
      let violations := create_violation_explanation O entities (rules self) in
      let proof_lines :=
        [ "HIPAA VIOLATION DETECTED"; Py.repeat_str "=" 40 ] in
      let proof_lines :=
        fold_left (fun lines v => lines ++ violation_lines v)
                  (Rules.violations violations) proof_lines in
      let proof_lines :=
        proof_lines ++
        [ "Total violations: "
            ^ Py.str_int (Z.of_nat (num_violations violations)) ] in
      let proof_lines :=
        proof_lines ++
        [ "Categories: " ^ Py.join ", " (categories_violated violations) ] in
      let proof := Py.join Py.newline proof_lines in
      {| status := VIOLATION;
         entities := entities;
         proof := proof;
         violations := Some violations;
         metadata := [ ("solver_result", "unsat") ] |}
  | _ =>
      let proof_lines :=
        [ "HIPAA COMPLIANT";
          Py.repeat_str "=" 40;
          "No prohibited PHI identifiers detected.";
          "";
          "Verification passed for all 18 HIPAA Safe Harbor categories:" ] in
      let proof_lines :=
        fold_left
          (fun lines cat =>
             let detected :=
               existsb (fun e => String.eqb (category e) cat) entities in
             let status := if detected then "✗ DETECTED" else "✓ Clear" in
             lines ++ [ "  " ^ cat ^ ": " ^ status ])
          prohibited_categories proof_lines in
      let proof := Py.join Py.newline proof_lines in
      {| status := COMPLIANT;
         entities := entities;
         proof := proof;
         violations := None;
         metadata := [ ("solver_result", "sat") ] |}
  end.

Definition batch_verify (O : Py.SetOrder) (self : HIPAAVerifier)
    (documents : list (list PHIDetection)) : list VerificationResult :=
  map (fun entities => verify O self entities) documents.

(** *** [verify] on the objects it is handed at run time

    Nothing checks the annotations when the code runs: [verify_text] hands
    [verify] whatever the extractor returned, and [verify_from_json] hands
    it detections whose fields hold decoded JSON as it came.  The
    definitions below follow the same lines of rules.py and verifier.py as
    [create_z3_constraints], [create_violation_explanation] and [verify],
    on such objects; on a list of detections with fields of the declared
    types they give what those give. *)

(** A [PHIDetection] object: the dataclass stores what it is given. *)
Record RawDetection : Type := {
  raw_category : Json.json;
  raw_value : Json.json;
  raw_start : Json.json;
  raw_end : Json.json;
  raw_confidence : Json.json
}.

(** What [verify] may be handed: a list of [PHIDetection] objects, or an
    object built from [None], numbers, strings, lists and dicts.
    ([Detections []] and [Other (JList [])] both stand for the empty
    list.) *)
Inductive Entities : Type :=
| Detections (ds : list RawDetection)
| Other (obj : Json.json).

(** A list comprehension whose body may raise: elements are taken in
    order and the first exception ends it. *)
Fixpoint comprehension {A B : Type} (body : A -> Py.outcome B) (xs : list A)
  : Py.outcome (list B) :=
  match xs with
  | [] => Py.Return []
  | x :: rest =>
      y <- body x ;;
      ys <- comprehension body rest ;;
      Py.Return (y :: ys)
  end.

(** [for d in detections] with [d.category] read from each element, as
    every loop over the detections does.  An object that is not iterable
    raises TypeError; a string yields its characters, a dict its keys and
    a list its items, none of which has an attribute [category]. *)
Definition detection_objects (detections : Entities)
  : Py.outcome (list RawDetection) :=
  match detections with
  | Detections ds => Py.Return ds
  | Other obj =>
      items <- Json.iter obj ;;
      match items with
      | [] => Py.Return []
      | d :: _ =>
          Py.Raise (Py.Exn Py.AttributeError
                      ("'" ^ Json.type_name d
                           ^ "' object has no attribute 'category'"))
      end
  end.

(** Lists and dicts cannot be hashed. *)
Definition hashable (v : Json.json) : bool :=
  match v with
  | Json.JList _ | Json.JDict _ => false
  | _ => true
  end.

(** [{d.category for d in detections}]: each category is hashed on its way
    into the set. *)
Definition category_set (detections : Entities)
  : Py.outcome (list Json.json) :=
  ds <- detection_objects detections ;;
  comprehension
    (fun d =>
       if hashable (raw_category d) then Py.Return (raw_category d)
       else Py.Raise (Py.Exn Py.TypeError
                        ("unhashable type: '"
                           ^ Json.type_name (raw_category d) ^ "'")))
    ds.

(** [v == name] for a category name: a string equals only an equal
    string. *)
Definition equals_str (v : Json.json) (name : string) : bool :=
  match v with
  | Json.JStr s => String.eqb s name
  | _ => false
  end.

(** [name in values] for a category name. *)
Definition str_in_values (name : string) (values : list Json.json) : bool :=
  existsb (fun v => equals_str v name) values.

(** rules.py 140-164 *)
Definition create_z3_constraints_obj (self : HIPAARules)
    (detections : Entities) (solver : Z3.Solver)
  : Py.outcome (Py.dict Z3.expr * Z3.Solver) :=
  let category_vars :=
    fold_left (fun d category =>
                 Py.dict_set d category (Z3.Bool (category ^ "_detected")))
              (get_prohibited_categories self) [] in
  detected_categories <- category_set detections ;;
  let solver :=
    fold_left (fun s '(category, var) =>
                 if str_in_values category detected_categories
                 then Z3.add s (Z3.Eq var (Z3.BoolVal true))
                 else Z3.add s (Z3.Eq var (Z3.BoolVal false)))
              category_vars solver in
  Py.Return (category_vars, solver).

(** One element of [violations], fields as they came. *)
Record ViolationObj : Type := {
  obj_category : string;
  obj_value : Json.json;
  obj_location : Json.json * Json.json;
  obj_confidence : Json.json;
  obj_violated_rules : list RuleRef
}.

Record ReportObj : Type := {
  obj_num_violations : nat;
  obj_violations : list ViolationObj;
  obj_categories_violated : list string
}.

(** rules.py 185-217.  [rules.is_prohibited(detection.category)] looks the
    category up in a list of names, so only a string can be prohibited. *)
Definition create_violation_explanation_obj (O : Py.SetOrder)
    (detections : Entities) (rules : HIPAARules) : Py.outcome ReportObj :=
  ds <- detection_objects detections ;;
  let violations :=
    fold_left
      (fun violations detection =>
         match raw_category detection with
         | Json.JStr category =>
             if is_prohibited rules category then
               let applicable_rules :=
                 get_rules_for_category rules category in
               violations ++
               [ {| obj_category := category;
                    obj_value := raw_value detection;
                    obj_location := (raw_start detection, raw_end detection);
                    obj_confidence := raw_confidence detection;
                    obj_violated_rules :=
                      map (fun r => {| r_id := id r; r_name := name r;
                                       r_description := description r |})
                          applicable_rules |} ]
             else violations
         | _ => violations
         end)
      ds [] in
  Py.Return
    {| obj_num_violations := List.length violations;
       obj_violations := violations;
       obj_categories_violated :=
         Py.list_set O (map obj_category violations) |}.

(** A [VerificationResult] object. *)
Record ResultObj : Type := {
  obj_status : ComplianceStatus;
  obj_entities : Entities;
  obj_proof : string;
  obj_report : option ReportObj;
  obj_metadata : Py.dict string
}.

(** The lines appended for one violation; the f-string fields write the
    value and the offsets with [str]. *)
Definition violation_lines_obj (repr : Json.json -> string)
    (v : ViolationObj) : list string :=
  let lines := [ "Category: " ^ obj_category v ] in
  let lines := lines ++ [ "  Value: " ^ Json.str repr (obj_value v) ] in
  let lines :=
    lines ++ [ "  Position: " ^ Json.str repr (fst (obj_location v))
                 ^ "-" ^ Json.str repr (snd (obj_location v)) ] in
  let lines :=
    fold_left (fun lines rule =>
                 lines ++ [ "  Violated: " ^ r_id rule ^ " - "
                              ^ r_description rule ])
              (obj_violated_rules v) lines in
  lines ++ [ "" ].

(** verifier.py 75-159.  Once the constraints are built the detections
    have been iterated without an exception, so the later loops over them
    succeed as well. *)
Definition verify_obj (O : Py.SetOrder) (repr : Json.json -> string)
    (self : HIPAAVerifier) (entities : Entities) : Py.outcome ResultObj :=
  let solver := Z3.Solver_new in
  made <- create_z3_constraints_obj (rules self) entities solver ;;
  let '(category_vars, solver) := made in
  let prohibited_categories := get_prohibited_categories (rules self) in
  let prohibited_vars :=
    flat_map (fun cat => match Py.dict_get category_vars cat with
                         | Some var => [var]
                         | None => []
                         end)
             prohibited_categories in
  let solver := Z3.push solver in
  let solver :=
    if Py.truthy prohibited_vars
    then Z3.add solver (Z3.Not (Z3.Or prohibited_vars))
    else solver in
  let result := Z3.check solver in
  let solver := Z3.pop solver in
  match result with
  | Z3.unsat =>
      violations <- create_violation_explanation_obj O entities (rules self) ;;
      let proof_lines :=
        [ "HIPAA VIOLATION DETECTED"; Py.repeat_str "=" 40 ] in
      let proof_lines :=
        fold_left (fun lines v => lines ++ violation_lines_obj repr v)
                  (obj_violations violations) proof_lines in
      let proof_lines :=
        proof_lines ++
        [ "Total violations: "
            ^ Py.str_int (Z.of_nat (obj_num_violations violations)) ] in
      let proof_lines :=
        proof_lines ++
        [ "Categories: "
            ^ Py.join ", " (obj_categories_violated violations) ] in
      let proof := Py.join Py.newline proof_lines in
      Py.Return
        {| obj_status := VIOLATION;
           obj_entities := entities;
           obj_proof := proof;
           obj_report := Some violations;
           obj_metadata := [ ("solver_result", "unsat") ] |}
  | _ =>
      ds <- detection_objects entities ;;
      let proof_lines :=
        [ "HIPAA COMPLIANT";
          Py.repeat_str "=" 40;
          "No prohibited PHI identifiers detected.";
          "";
          "Verification passed for all 18 HIPAA Safe Harbor categories:" ] in
      let proof_lines :=
        fold_left
          (fun lines cat =>
             let detected :=
               existsb (fun e => equals_str (raw_category e) cat) ds in
             let status := if detected then "✗ DETECTED" else "✓ Clear" in
             lines ++ [ "  " ^ cat ^ ": " ^ status ])
          prohibited_categories proof_lines in
      let proof := Py.join Py.newline proof_lines in
      Py.Return
        {| obj_status := COMPLIANT;
           obj_entities := entities;
           obj_proof := proof;
           obj_report := None;
           obj_metadata := [ ("solver_result", "sat") ] |}
  end.

(** An extractor is any callable on the text: a call returns some object
    or raises. *)
Definition Extractor : Type := string -> Py.outcome Entities.

(** verifier.py 161-198: the [try] covers the call of the extractor and
    the call of [verify] on what it returned. *)
Definition verify_text (O : Py.SetOrder) (repr : Json.json -> string)
    (self : HIPAAVerifier) (text : string)
    (entity_extractor : option Extractor) : Py.outcome ResultObj :=
  match entity_extractor with
  | None =>
      Py.Return
        {| obj_status := ERROR;
           obj_entities := Detections [];
           obj_proof := "No entity extractor provided. Use verify() with pre-extracted entities.";
           obj_report := None;
           obj_metadata := [ ("error", "no_extractor") ] |}
  | Some extractor =>
      Py.try_except_Exception
        (entities <- extractor text ;;
         verify_obj O repr self entities)
        (fun e =>
           Py.Return
             {| obj_status := ERROR;
                obj_entities := Detections [];
                obj_proof := "Error during verification: " ^ Py.exn_str e;
                obj_report := None;
                obj_metadata := [ ("error", Py.exn_str e) ] |})
  end.

(** The body of the comprehension of [verify_from_json] for one element
    [e]; the keyword arguments are evaluated left to right. *)
Definition raw_detection (e : Json.json) : Py.outcome RawDetection :=
  c <- Json.getitem e "category" ;;
  v <- Json.get e "value" (Json.JStr "") ;;
  s <- Json.get e "start" (Json.JInt 0) ;;
  n <- Json.get e "end" (Json.JInt 0) ;;
  f <- Json.get e "confidence" (Json.JFloat 1%float) ;;
  Py.Return {| raw_category := c; raw_value := v; raw_start := s;
               raw_end := n; raw_confidence := f |}.

(** verifier.py 215-243.  [loads] stands for [json.loads] and [cfg] for the
    configuration found at [config_path]. *)
Definition verify_from_json (O : Py.SetOrder) (repr : Json.json -> string)
    (loads : string -> Py.outcome Json.json) (cfg : Config)
    (entities_json : Json.json) : Py.outcome ResultObj :=
  entities_json <- match entities_json with
                   | Json.JStr text => loads text
                   | _ => Py.Return entities_json
                   end ;;
  source <- Json.get entities_json "entities" entities_json ;;
  items <- Json.iter source ;;
  entities <- comprehension raw_detection items ;;
  let verifier := HIPAAVerifier_init cfg in
  verify_obj O repr verifier (Detections entities).

(** A detection with fields of the declared types, as an object. *)
Definition detection_obj (d : PHIDetection) : RawDetection :=
  {| raw_category := Json.JStr (category d);
     raw_value := Json.JStr (value d);
     raw_start := Json.JInt (start d);
     raw_end := Json.JInt (end_ d);
     raw_confidence := Json.JFloat (confidence d) |}.

Definition violation_obj (v : Violation) : ViolationObj :=
  {| obj_category := v_category v;
     obj_value := Json.JStr (v_value v);
     obj_location := (Json.JInt (fst (v_location v)),
                      Json.JInt (snd (v_location v)));
     obj_confidence := Json.JFloat (v_confidence v);
     obj_violated_rules := violated_rules v |}.

Definition report_obj (report : ViolationReport) : ReportObj :=
  {| obj_num_violations := num_violations report;
     obj_violations := map violation_obj (Rules.violations report);
     obj_categories_violated := categories_violated report |}.

(** A result of [verify] on typed detections, as an object. *)
Definition result_obj (r : VerificationResult) : ResultObj :=
  {| obj_status := status r;
     obj_entities := Detections (map detection_obj (entities r));
     obj_proof := proof r;
     obj_report := option_map report_obj (violations r);
     obj_metadata := metadata r |}.

End Verifier.

(** ** Reference definitions the properties are stated against *)

Module Spec.
Import Rules Verifier.

(** The distinct elements of a list, each at its first occurrence. *)
Fixpoint first_occurrences (xs : list string) : list string :=
  match xs with
  | [] => []
  | x :: rest =>
      x :: filter (fun y => negb (String.eqb y x)) (first_occurrences rest)
  end.

(** The direct membership rule: some detection has a prohibited category. *)
Definition has_prohibited (self : HIPAAVerifier) (D : list PHIDetection)
  : bool :=
  existsb (fun d => is_prohibited (rules self) (category d)) D.

(** The detections of [D] whose category is prohibited, in input order. *)
Definition prohibited_detections (self : HIPAAVerifier)
    (D : list PHIDetection) : list PHIDetection :=
  filter (fun d => is_prohibited (rules self) (category d)) D.

(** The five header lines of a compliant proof. *)
Definition compliant_header : list string :=
  [ "HIPAA COMPLIANT";
    "========================================";
    "No prohibited PHI identifiers detected.";
    "";
    "Verification passed for all 18 HIPAA Safe Harbor categories:" ].

(** The line of a category that is clear. *)
Definition clear_line (cat : string) : string := "  " ^ cat ^ ": ✓ Clear".

(** The line of a category that is detected. *)
Definition detected_line (cat : string) : string := "  " ^ cat ^ ": ✗ DETECTED".

(** The record [create_violation_explanation] appends for a detection. *)
Definition violation_of (self : HIPAAVerifier) (d : PHIDetection)
  : Violation :=
  {| v_category := category d;
     v_value := value d;
     v_location := (start d, end_ d);
     v_confidence := confidence d;
     violated_rules :=
       map (fun r => {| r_id := id r; r_name := name r;
                        r_description := description r |})
           (get_rules_for_category (rules self) (category d)) |}.

(** The verifier built on the policy configuration. *)
Definition hipaa_verifier : HIPAAVerifier := HIPAAVerifier_init hipaa_v1.

End Spec.

(** * Properties *)

Import Rules Verifier Spec.

(** ** The solver model decides satisfiability *)

Section ExprInduction.
Variable P : Z3.expr -> Prop.
Hypothesis HBool : forall x, P (Z3.Bool x).
Hypothesis HVal : forall b, P (Z3.BoolVal b).
Hypothesis HEq : forall a b, P a -> P b -> P (Z3.Eq a b).
Hypothesis HNot : forall a, P a -> P (Z3.Not a).
Hypothesis HOr : forall args, Forall P args -> P (Z3.Or args).

Fixpoint expr_nested_ind (e : Z3.expr) : P e :=
  match e with
  | Z3.Bool x => HBool x
  | Z3.BoolVal b => HVal b
  | Z3.Eq a b => HEq a b (expr_nested_ind a) (expr_nested_ind b)
  | Z3.Not a => HNot a (expr_nested_ind a)
  | Z3.Or args =>
      HOr args
        ((fix all (l : list Z3.expr) : Forall P l :=
            match l with
            | [] => Forall_nil P
            | x :: r => Forall_cons x (expr_nested_ind x) (all r)
            end) args)
  end.
End ExprInduction.

Lemma eval_agree (m1 m2 : Z3.model) (e : Z3.expr) :
  (forall x, In x (Z3.consts e) -> m1 x = m2 x) ->
  Z3.eval m1 e = Z3.eval m2 e.
Proof.
  induction e using expr_nested_ind; simpl; intros Hag.
  - apply Hag. now left.
  - reflexivity.
  - rewrite IHe1, IHe2; auto; intros x Hx; apply Hag, in_or_app; auto.
  - now rewrite IHe.
  - induction H as [|a args Ha Hargs IH]; simpl in *; [reflexivity|].
    rewrite Ha, IH; auto; intros x Hx; apply Hag, in_or_app; auto.
Qed.

Lemma holds_Forall (m : Z3.model) (fs : list Z3.expr) :
  Z3.holds m fs = true <-> Forall (fun f => Z3.eval m f = true) fs.
Proof.
  induction fs as [|f fs IH]; simpl.
  - split; auto.
  - destruct (Z3.eval m f) eqn:E.
    + rewrite IH. split; [now constructor | now inversion 1].
    + split; [discriminate | inversion 1; congruence].
Qed.

Lemma holds_agree (m1 m2 : Z3.model) (fs : list Z3.expr) :
  (forall x, In x (flat_map Z3.consts fs) -> m1 x = m2 x) ->
  Z3.holds m1 fs = Z3.holds m2 fs.
Proof.
  induction fs as [|f fs IH]; simpl; intros Hag; [reflexivity|].
  rewrite (eval_agree m1 m2 f), IH; auto;
    intros x Hx; apply Hag, in_or_app; auto.
Qed.

Lemma search_complete (xs : list string) (fs : list Z3.expr) :
  forall m,
    Z3.search xs m fs = true <->
    exists m', (forall y, ~ In y xs -> m' y = m y) /\ Z3.holds m' fs = true.
Proof.
  induction xs as [|x xs IH]; intros m; simpl.
  - split.
    + intros H. exists m. auto.
    + intros (m' & Hag & H).
      rewrite <- H. apply holds_agree. intros; symmetry; auto.
  - split.
    + intros H.
      assert (Hb : exists b, Z3.search xs (Z3.update m x b) fs = true).
      { destruct (Z3.search xs (Z3.update m x false) fs) eqn:E;
          [exists false | exists true]; auto. }
      destruct Hb as (b & Hb). apply IH in Hb as (m' & Hag & Hm').
      exists m'. split; auto. intros y Hy. simpl in Hy.
      rewrite Hag by tauto. unfold Z3.update.
      destruct (String.eqb_spec y x); [subst; tauto | reflexivity].
    + intros (m' & Hag & Hm').
      assert (Hb : Z3.search xs (Z3.update m x (m' x)) fs = true).
      { apply IH. exists m'. split; auto. intros y Hy. unfold Z3.update.
        destruct (String.eqb_spec y x); [now subst|].
        apply Hag. simpl. intros [->|]; tauto. }
      destruct (m' x); [|now rewrite Hb].
      destruct (Z3.search xs (Z3.update m x false) fs); auto.
Qed.

(** [check] answers [sat] exactly when some model satisfies every
    assertion, and [unsat] otherwise. *)
Lemma check_sat_iff (s : Z3.Solver) :
  Z3.check s = Z3.sat <->
  exists m, Z3.holds m (Z3.assertions s) = true.
Proof.
  unfold Z3.check.
  destruct (Z3.search _ _ _) eqn:E.
  - split; auto. intros _. apply search_complete in E as (m & _ & H). eauto.
  - split; [discriminate|]. intros (m & Hm). exfalso.
    assert (Z3.search (nodup string_dec (flat_map Z3.consts (Z3.assertions s)))
              (fun _ => false) (Z3.assertions s) = true); [|congruence].
    apply search_complete.
    exists (fun y => if in_dec string_dec y (flat_map Z3.consts (Z3.assertions s))
                     then m y else false).
    split.
    + intros y Hy. rewrite nodup_In in Hy. now destruct (in_dec _ _ _).
    + rewrite <- Hm. apply holds_agree. intros x Hx.
      now destruct (in_dec _ _ _).
Qed.

Lemma check_unsat_iff (s : Z3.Solver) :
  Z3.check s = Z3.unsat <->
  forall m, Z3.holds m (Z3.assertions s) = false.
Proof.
  split.
  - intros H m. destruct (Z3.holds m (Z3.assertions s)) eqn:E; auto.
    assert (Z3.check s = Z3.sat) by (apply check_sat_iff; eauto). congruence.
  - intros H. unfold Z3.check. destruct (Z3.search _ _ _) eqn:E; auto.
    apply search_complete in E as (m & _ & Hm). rewrite H in Hm. discriminate.
Qed.

Lemma assertions_add (s : Z3.Solver) (e : Z3.expr) :
  Z3.assertions (Z3.add s e) = Z3.assertions s ++ [e].
Proof.
  unfold Z3.assertions. destruct s as [|top below]; simpl; [reflexivity|].
  rewrite !concat_app. simpl. now rewrite !app_nil_r, app_assoc.
Qed.

Lemma assertions_push (s : Z3.Solver) :
  Z3.assertions (Z3.push s) = Z3.assertions s.
Proof.
  unfold Z3.assertions, Z3.push. simpl.
  now rewrite concat_app, app_nil_r.
Qed.

(** ** Dictionaries and membership *)

Lemma str_in_In (x : string) (xs : list string) :
  Py.str_in x xs = true <-> In x xs.
Proof.
  unfold Py.str_in. rewrite existsb_exists. split.
  - intros (y & Hy & E). apply String.eqb_eq in E. now subst.
  - intros H. exists x. split; auto. apply String.eqb_refl.
Qed.

Lemma str_in_false (x : string) (xs : list string) :
  Py.str_in x xs = false <-> ~ In x xs.
Proof.
  rewrite <- str_in_In. destruct (Py.str_in x xs); split; congruence.
Qed.

Lemma dict_get_set {V : Type} (d : Py.dict V) (k k' : string) (v : V) :
  Py.dict_get (Py.dict_set d k v) k' =
  if String.eqb k k' then Some v else Py.dict_get d k'.
Proof.
  induction d as [|[k0 v0] rest IH]; simpl; [reflexivity|].
  destruct (String.eqb_spec k0 k) as [->|Hne]; simpl.
  - destruct (String.eqb k k'); reflexivity.
  - rewrite IH. destruct (String.eqb_spec k0 k') as [->|]; auto.
    destruct (String.eqb_spec k k'); congruence.
Qed.

Lemma dict_set_In {V : Type} (d : Py.dict V) (k c : string) (v w : V) :
  In (c, w) (Py.dict_set d k v) -> In (c, w) d \/ (c = k /\ w = v).
Proof.
  induction d as [|[k0 v0] rest IH]; simpl.
  - intros [E|[]]. inversion E. auto.
  - destruct (String.eqb k0 k); simpl.
    + intros [E|H]; [inversion E|]; auto.
    + intros [E|H]; auto. apply IH in H. tauto.
Qed.

Lemma dict_get_In {V : Type} (d : Py.dict V) (k : string) (v : V) :
  Py.dict_get d k = Some v -> In (k, v) d.
Proof.
  induction d as [|[k0 v0] rest IH]; simpl; [discriminate|].
  destruct (String.eqb_spec k0 k) as [->|]; auto.
  intros E. inversion E. auto.
Qed.

(** ** The satisfiability check of [verify] is the membership rule *)

Section Decision.
Variable self : HIPAAVerifier.
Variable D : list PHIDetection.

Let cats := get_prohibited_categories (rules self).
Let var_of (c : string) := Z3.Bool (c ^ "_detected").
Let step (d : Py.dict Z3.expr) (c : string) := Py.dict_set d c (var_of c).

Lemma category_vars_get (cs : list string) :
  forall d0 c,
    Py.dict_get (fold_left step cs d0) c =
    if Py.str_in c cs then Some (var_of c) else Py.dict_get d0 c.
Proof.
  induction cs as [|a cs IH]; intros d0 c; simpl; [reflexivity|].
  rewrite IH. unfold step. rewrite dict_get_set.
  fold (Py.str_in c cs). rewrite (String.eqb_sym c a).
  destruct (String.eqb_spec a c); subst; destruct (Py.str_in c cs);
    reflexivity.
Qed.

Lemma category_vars_In (cs : list string) :
  forall d0 c w,
    In (c, w) (fold_left step cs d0) ->
    In (c, w) d0 \/ (In c cs /\ w = var_of c).
Proof.
  induction cs as [|a cs IH]; intros d0 c w; simpl; auto.
  intros H. apply IH in H as [H|[H ->]]; [|tauto].
  apply dict_set_In in H as [H|[-> ->]]; auto.
Qed.

Lemma constraints_assertions (detected : list string)
    (cv : Py.dict Z3.expr) :
  forall s,
    Z3.assertions
      (fold_left (fun s '(category, var) =>
                    if Py.str_in category detected
                    then Z3.add s (Z3.Eq var (Z3.BoolVal true))
                    else Z3.add s (Z3.Eq var (Z3.BoolVal false)))
                 cv s) =
    Z3.assertions s ++
    map (fun '(c, var) => Z3.Eq var (Z3.BoolVal (Py.str_in c detected))) cv.
Proof.
  induction cv as [|[c var] cv IH]; intros s; simpl.
  - now rewrite app_nil_r.
  - rewrite IH. destruct (Py.str_in c detected);
      now rewrite assertions_add, <- app_assoc.
Qed.

Lemma prohibited_vars_map (cv : Py.dict Z3.expr) :
  cv = fold_left step cats [] ->
  flat_map (fun cat => match Py.dict_get cv cat with
                       | Some var => [var]
                       | None => []
                       end) cats = map var_of cats.
Proof.
  intros ->. rewrite flat_map_concat_map. 
  rewrite (map_ext_in _ (fun c => [var_of c])).
  - induction cats; simpl; congruence.
  - intros c Hc. rewrite category_vars_get.
    apply str_in_In in Hc. now rewrite Hc.
Qed.

Lemma has_prohibited_true :
  has_prohibited self D = true <->
  exists d, In d D /\ In (category d) cats.
Proof.
  unfold has_prohibited, is_prohibited. rewrite existsb_exists.
  split; intros (d & H1 & H2); exists d; split; auto;
    now apply str_in_In.
Qed.

(** The outcome of [solver.check()] in [verify]. *)
Lemma decision_outcome (cv : Py.dict Z3.expr) (solver : Z3.Solver) :
  create_z3_constraints (rules self) D Z3.Solver_new = (cv, solver) ->
  forall pv,
    pv = flat_map (fun cat => match Py.dict_get cv cat with
                              | Some var => [var]
                              | None => []
                              end) cats ->
    Z3.check (if Py.truthy pv
              then Z3.add (Z3.push solver) (Z3.Not (Z3.Or pv))
              else Z3.push solver) =
    if has_prohibited self D then Z3.unsat else Z3.sat.
Proof.
  unfold create_z3_constraints. intros E pv Hpv.
  injection E as Hcv Hs. fold cats in Hcv. fold step in Hcv.
  symmetry in Hcv. rewrite (prohibited_vars_map cv Hcv) in Hpv.
  assert (Has : Z3.assertions (Z3.push solver) =
                map (fun '(c, var) =>
                       Z3.Eq var (Z3.BoolVal
                                    (Py.str_in c (map category D)))) cv).
  { rewrite assertions_push, <- Hs. fold cats. fold step. rewrite <- Hcv.
    now rewrite constraints_assertions. }
  destruct (has_prohibited self D) eqn:Hp.
  - apply has_prohibited_true in Hp as (d & Hd & Hc).
    assert (Hne : Py.truthy pv = true).
    { subst pv. destruct cats; [destruct Hc | reflexivity]. }
    rewrite Hne. apply check_unsat_iff. intros m.
    destruct (Z3.holds m _) eqn:Hm; auto. exfalso.
    rewrite assertions_add, Has in Hm.
    apply holds_Forall in Hm. rewrite Forall_app in Hm.
    destruct Hm as [Hfix Hnot]. rewrite Forall_forall in Hfix.
    assert (Hin : In (category d, var_of (category d)) cv).
    { apply dict_get_In. rewrite Hcv, category_vars_get.
      apply str_in_In in Hc. now rewrite Hc. }
    specialize (Hfix _ (in_map _ _ _ Hin)). simpl in Hfix.
    assert (Hdet : Py.str_in (category d) (map category D) = true)
      by (apply str_in_In, in_map, Hd).
    rewrite Hdet in Hfix. apply Bool.eqb_prop in Hfix.
    inversion Hnot as [|? ? Hn _]. simpl in Hn.
    apply negb_true_iff in Hn.
    assert (existsb (Z3.eval m) pv = true); [|congruence].
    apply existsb_exists. exists (var_of (category d)). split.
    + subst pv. now apply in_map.
    + exact Hfix.
  - assert (Hclean : forall c w, In (c, w) cv ->
              w = var_of c /\ Py.str_in c (map category D) = false).
    { intros c w Hin. rewrite Hcv in Hin.
      apply category_vars_In in Hin as [[]|[Hc ->]]. split; auto.
      apply str_in_false. intros Hdet. apply in_map_iff in Hdet.
      destruct Hdet as (d & <- & Hd).
      assert (has_prohibited self D = true); [|congruence].
      apply has_prohibited_true. eauto. }
    assert (Hall : forall m0 : Z3.model, m0 = (fun _ => false) ->
              Z3.holds m0 (Z3.assertions (Z3.push solver)) = true /\
              existsb (Z3.eval m0) pv = false).
    { intros m0 ->. split.
      - apply holds_Forall. rewrite Has. apply Forall_forall.
        intros f Hf. apply in_map_iff in Hf as ([c w] & <- & Hin).
        destruct (Hclean _ _ Hin) as [-> ->]. reflexivity.
      - subst pv. clear. induction cats; simpl; auto. }
    destruct (Hall _ eq_refl) as [Hh Hv].
    apply check_sat_iff. exists (fun _ => false).
    destruct (Py.truthy pv); auto.
    rewrite assertions_add. apply holds_Forall, Forall_app. split.
    + now apply holds_Forall.
    + constructor; auto. simpl. now rewrite Hv.
Qed.

End Decision.

(** ** The two branches of [verify] *)

Lemma fold_left_snoc {A B : Type} (f : A -> list B) (xs : list A) :
  forall init,
    fold_left (fun acc x => acc ++ f x) xs init = init ++ flat_map f xs.
Proof.
  induction xs as [|x xs IH]; intros init; simpl.
  - now rewrite app_nil_r.
  - now rewrite IH, app_assoc.
Qed.

Lemma fold_left_pointwise {A B : Type} (f g : B -> A -> B) (xs : list A) :
  (forall acc x, f acc x = g acc x) ->
  forall init, fold_left f xs init = fold_left g xs init.
Proof.
  intros Hfg. induction xs as [|x xs IH]; intros init; simpl; [reflexivity|].
  now rewrite Hfg, IH.
Qed.

Lemma explanation_violations (O : Py.SetOrder) (self : HIPAAVerifier)
    (D : list PHIDetection) :
  Rules.violations (create_violation_explanation O D (rules self)) =
  map (violation_of self) (prohibited_detections self D).
Proof.
  unfold create_violation_explanation, prohibited_detections. simpl.
  rewrite (fold_left_pointwise
             _ (fun acc d => acc ++ if is_prohibited (rules self) (category d)
                                    then [violation_of self d] else [])).
  - rewrite fold_left_snoc. simpl.
    induction D as [|d D IH]; simpl; [reflexivity|].
    destruct (is_prohibited _ _); simpl; now rewrite IH.
  - intros acc d. destruct (is_prohibited _ _); [reflexivity|].
    now rewrite app_nil_r.
Qed.

Lemma explanation_num (O : Py.SetOrder) (self : HIPAAVerifier)
    (D : list PHIDetection) :
  num_violations (create_violation_explanation O D (rules self)) =
  List.length (prohibited_detections self D).
Proof.
  change (num_violations (create_violation_explanation O D (rules self)))
    with (List.length
            (Rules.violations
               (create_violation_explanation O D (rules self)))).
  now rewrite explanation_violations, length_map.
Qed.

Lemma explanation_categories (O : Py.SetOrder) (self : HIPAAVerifier)
    (D : list PHIDetection) :
  categories_violated (create_violation_explanation O D (rules self)) =
  Py.list_set O (map category (prohibited_detections self D)).
Proof.
  change (categories_violated (create_violation_explanation O D (rules self)))
    with (Py.list_set O
            (map v_category
               (Rules.violations
                  (create_violation_explanation O D (rules self))))).
  now rewrite explanation_violations, map_map.
Qed.

Lemma verify_violation (O : Py.SetOrder) (self : HIPAAVerifier)
    (D : list PHIDetection) :
  has_prohibited self D = true ->
  status (verify O self D) = VIOLATION /\
  entities (verify O self D) = D /\
  Verifier.violations (verify O self D) =
    Some (create_violation_explanation O D (rules self)) /\
  metadata (verify O self D) = [ ("solver_result", "unsat") ].
Proof.
  intros Hp. unfold verify.
  destruct (create_z3_constraints (rules self) D Z3.Solver_new)
    as [cv solver] eqn:E.
  pose proof (decision_outcome self D cv solver E _ eq_refl) as Hc.
  cbv zeta in Hc. cbv zeta. rewrite Hc, Hp. simpl. auto.
Qed.

Lemma verify_compliant (O : Py.SetOrder) (self : HIPAAVerifier)
    (D : list PHIDetection) :
  has_prohibited self D = false ->
  verify O self D =
  {| status := COMPLIANT;
     entities := D;
     proof := Py.join Py.newline
                (compliant_header ++
                 map clear_line (get_prohibited_categories (rules self)));
     violations := None;
     metadata := [ ("solver_result", "sat") ] |}.
Proof.
  intros Hp. unfold verify.
  destruct (create_z3_constraints (rules self) D Z3.Solver_new)
    as [cv solver] eqn:E.
  pose proof (decision_outcome self D cv solver E _ eq_refl) as Hc.
  cbv zeta in Hc. cbv zeta. rewrite Hc, Hp. f_equal. f_equal.
  rewrite (fold_left_snoc
             (fun cat =>
                [ "  " ^ cat ^ ": " ^
                  (if existsb (fun e => String.eqb (category e) cat) D
                   then "✗ DETECTED" else "✓ Clear") ])).
  f_equal. rewrite flat_map_concat_map.
  rewrite (map_ext_in _ (fun cat => [clear_line cat])).
  - generalize (get_prohibited_categories (rules self)).
    induction l; simpl; congruence.
  - intros cat Hcat.
    destruct (existsb (fun e => String.eqb (category e) cat) D) eqn:Ex;
      [|reflexivity].
    exfalso. apply existsb_exists in Ex as (d & Hd & Hc').
    apply String.eqb_eq in Hc'. subst cat.
    assert (has_prohibited self D = true); [|congruence].
    apply has_prohibited_true. eauto.
Qed.

(** ** First-occurrence order and admissible set orders *)

Lemma first_occurrences_In (xs : list string) (x : string) :
  In x (first_occurrences xs) <-> In x xs.
Proof.
  induction xs as [|a xs IH]; simpl; [tauto|].
  rewrite filter_In, IH.
  destruct (String.eqb_spec x a) as [->|Hne]; simpl.
  - tauto.
  - split; [tauto|]. intros [E|H]; [congruence | auto].
Qed.

Lemma first_occurrences_NoDup (xs : list string) :
  NoDup (first_occurrences xs).
Proof.
  induction xs as [|a xs IH]; simpl; constructor.
  - rewrite filter_In, String.eqb_refl. simpl. intros [_ H]. discriminate.
  - now apply NoDup_filter.
Qed.

(** A set that hands its elements back in insertion order. *)
Definition insertion_order : Py.SetOrder :=
  {| Py.list_set := first_occurrences;
     Py.list_set_NoDup := first_occurrences_NoDup;
     Py.list_set_In := first_occurrences_In |}.

Lemma reversed_NoDup (xs : list string) : NoDup (rev (first_occurrences xs)).
Proof. apply NoDup_rev, first_occurrences_NoDup. Qed.

Lemma reversed_In (xs : list string) (x : string) :
  In x (rev (first_occurrences xs)) <-> In x xs.
Proof. now rewrite <- in_rev, first_occurrences_In. Qed.

(** A set that hands its elements back latest insertion first. *)
Definition reversed_order : Py.SetOrder :=
  {| Py.list_set := fun xs => rev (first_occurrences xs);
     Py.list_set_NoDup := reversed_NoDup;
     Py.list_set_In := reversed_In |}.

(** ** Sample detections *)

Set Warnings "-inexact-float".

Definition detection (c v : string) (s e : Z) (f : float) : PHIDetection :=
  {| category := c; value := v; start := s; end_ := e; confidence := f |}.

Definition john_smith : PHIDetection :=
  detection "NAMES" "John Smith" 0 10 0.95%float.
Definition john : PHIDetection := detection "NAMES" "John" 0 4 0.9%float.
Definition ssn_sure : PHIDetection :=
  detection "SSN" "123-45-6789" 20 31 1%float.
Definition ssn_faint : PHIDetection :=
  detection "SSN" "987-65-4321" 3 14 0.01%float.
Definition diagnosis : PHIDetection :=
  detection "DIAGNOSIS" "type 2 diabetes" 5 20 0.8%float.

(** ** The decision rule *)

Lemma hipaa_prohibited_categories :
  get_prohibited_categories (rules hipaa_verifier) = hipaa_v1_names.
Proof. reflexivity. Qed.

Lemma verify_status_cases (O : Py.SetOrder) (self : HIPAAVerifier)
    (D : list PHIDetection) :
  (has_prohibited self D = true /\
   status (verify O self D) = VIOLATION /\
   metadata (verify O self D) = [ ("solver_result", "unsat") ]) \/
  (has_prohibited self D = false /\
   status (verify O self D) = COMPLIANT /\
   metadata (verify O self D) = [ ("solver_result", "sat") ]).
Proof.
  destruct (has_prohibited self D) eqn:Hp.
  - left. destruct (verify_violation O self D Hp) as (? & ? & ? & ?). auto.
  - right. rewrite (verify_compliant O self D Hp). auto.
Qed.

(** C1.  For every detection list [D], [verify] (which asks the solver
    whether the per-category constants, each fixed to the presence of its
    category, admit the negated disjunction) returns VIOLATION, with solver
    outcome unsat, exactly when some detection of [D] has one of the 18
    prohibited categories, and COMPLIANT, with solver outcome sat, exactly
    when none has. *)
Theorem verify_decision_rule (O : Py.SetOrder) (D : list PHIDetection) :
  let r := verify O hipaa_verifier D in
  let violating := exists d, In d D /\ In (category d) hipaa_v1_names in
  get_prohibited_categories (rules hipaa_verifier) = hipaa_v1_names /\
  List.length hipaa_v1_names = 18%nat /\
  (status r = VIOLATION <-> violating) /\
  (status r = COMPLIANT <-> ~ violating) /\
  (Py.dict_get (metadata r) "solver_result" = Some "unsat" <-> violating) /\
  (Py.dict_get (metadata r) "solver_result" = Some "sat" <-> ~ violating).
Proof.
  intros r violating.
  assert (Hv : has_prohibited hipaa_verifier D = true <-> violating)
    by apply has_prohibited_true.
  assert (Hn : has_prohibited hipaa_verifier D = false <-> ~ violating).
  { rewrite <- Hv. destruct (has_prohibited hipaa_verifier D);
      split; congruence. }
  split; [reflexivity|]. split; [reflexivity|].
  subst r.
  destruct (verify_status_cases O hipaa_verifier D)
    as [(Hp & -> & ->)|(Hp & -> & ->)]; simpl;
    repeat split; intros; try tauto; try discriminate;
    try (apply Hv; assumption); try (apply Hn; assumption);
    exfalso.
  all: try (assert (violating) by (apply Hv; assumption); tauto).
  all: try (assert (~ violating) by (apply Hn; assumption); tauto).
Qed.

(** The embedded solver run on a sample: unsat, hence VIOLATION. *)
Lemma sample_violation (O : Py.SetOrder) :
  status (verify O hipaa_verifier [john; john_smith; ssn_sure]) = VIOLATION.
Proof. vm_compute. reflexivity. Qed.

(** ** Violation count *)

Lemma status_violation_report (O : Py.SetOrder) (self : HIPAAVerifier)
    (D : list PHIDetection) :
  status (verify O self D) = VIOLATION ->
  has_prohibited self D = true /\
  Verifier.violations (verify O self D) =
    Some (create_violation_explanation O D (rules self)).
Proof.
  intros Hs. destruct (has_prohibited self D) eqn:Hp.
  - split; auto. now destruct (verify_violation O self D Hp) as (_ & _ & ? & _).
  - rewrite (verify_compliant O self D Hp) in Hs. discriminate.
Qed.

(** C4.  When [verify] returns VIOLATION, [num_violations] is the number of
    detections of [D] whose category is prohibited: every such detection
    counts, whatever its category or span shares with the others. *)
Theorem num_violations_counts_detections (O : Py.SetOrder)
    (D : list PHIDetection) :
  status (verify O hipaa_verifier D) = VIOLATION ->
  exists report,
    Verifier.violations (verify O hipaa_verifier D) = Some report /\
    num_violations report =
      List.length
        (filter (fun d => Py.str_in (category d) hipaa_v1_names) D) /\
    List.length (Rules.violations report) = num_violations report.
Proof.
  intros Hs. apply status_violation_report in Hs as [_ Hr].
  eexists. split; [exact Hr|]. split.
  - now rewrite explanation_num.
  - reflexivity.
Qed.

(** Two detections of one category with overlapping spans, and a third of
    another category: three violations. *)
Lemma num_violations_counts_detections_witness :
  status (verify insertion_order hipaa_verifier [john; john_smith; ssn_sure])
    = VIOLATION /\
  exists report,
    Verifier.violations
      (verify insertion_order hipaa_verifier [john; john_smith; ssn_sure])
      = Some report /\
    num_violations report = 3%nat /\
    List.length (Rules.violations report) = num_violations report.
Proof.
  split; [exact (sample_violation insertion_order)|].
  exact (num_violations_counts_detections insertion_order
           [john; john_smith; ssn_sure] (sample_violation insertion_order)).
Defined.

(** ** Compliant results *)

(** C7.  When [verify] returns COMPLIANT, the proof text is the compliant
    header followed by the line of each of the 18 categories, in catalogue
    order, marked clear; the test that would mark a category detected is
    false for every one of them. *)
Theorem compliant_proof_all_clear (O : Py.SetOrder) (D : list PHIDetection) :
  status (verify O hipaa_verifier D) = COMPLIANT ->
  proof (verify O hipaa_verifier D) =
    Py.join Py.newline (compliant_header ++ map clear_line hipaa_v1_names) /\
  List.length (map clear_line hipaa_v1_names) = 18%nat /\
  forall cat, In cat hipaa_v1_names ->
    existsb (fun e => String.eqb (category e) cat) D = false.
Proof.
  intros Hs. destruct (has_prohibited hipaa_verifier D) eqn:Hp.
  - destruct (verify_violation O hipaa_verifier D Hp) as (Hv & _).
    congruence.
  - rewrite (verify_compliant O hipaa_verifier D Hp). simpl proof.
    split; [reflexivity|]. split; [reflexivity|].
    intros cat Hcat.
    destruct (existsb _ D) eqn:Ex; [|reflexivity].
    apply existsb_exists in Ex as (d & Hd & Hc).
    apply String.eqb_eq in Hc. subst cat.
    assert (has_prohibited hipaa_verifier D = true); [|congruence].
    apply has_prohibited_true. eauto.
Qed.

(** A detection outside the 18 categories leaves the document compliant. *)
Lemma compliant_proof_all_clear_witness :
  status (verify insertion_order hipaa_verifier [diagnosis]) = COMPLIANT /\
  proof (verify insertion_order hipaa_verifier [diagnosis]) =
    Py.join Py.newline (compliant_header ++ map clear_line hipaa_v1_names).
Proof.
  assert (Hs : status (verify insertion_order hipaa_verifier [diagnosis])
               = COMPLIANT) by (vm_compute; reflexivity).
  split; [exact Hs|].
  exact (proj1 (compliant_proof_all_clear insertion_order [diagnosis] Hs)).
Defined.

(** C8.  [verify] of the empty list is COMPLIANT, without a violation
    report, and its proof is the compliant header followed by one clear
    line for each of the 18 categories. *)
Theorem verify_empty_compliant (O : Py.SetOrder) :
  status (verify O hipaa_verifier []) = COMPLIANT /\
  Verifier.violations (verify O hipaa_verifier []) = None /\
  entities (verify O hipaa_verifier []) = [] /\
  proof (verify O hipaa_verifier []) =
    Py.join Py.newline (compliant_header ++ map clear_line hipaa_v1_names) /\
  hd_error compliant_header = Some "HIPAA COMPLIANT" /\
  List.length (map clear_line hipaa_v1_names) = 18%nat.
Proof.
  rewrite (verify_compliant O hipaa_verifier [] eq_refl).
  repeat split.
Qed.

(** ** Batches *)

(** C9.  [batch_verify] returns one result per document, in order: its
    [i]-th result is [verify] of the [i]-th document, and the empty batch
    gives the empty list. *)
Theorem batch_verify_pointwise (O : Py.SetOrder) (self : HIPAAVerifier)
    (docs : list (list PHIDetection)) :
  List.length (batch_verify O self docs) = List.length docs /\
  (forall i, nth_error (batch_verify O self docs) i =
             option_map (verify O self) (nth_error docs i)) /\
  batch_verify O self [] = [].
Proof.
  unfold batch_verify. split; [apply length_map|]. split; [|reflexivity].
  intros i. apply nth_error_map.
Qed.

(** ** Only the categories matter *)

Lemma prohibited_categories_filter (self : HIPAAVerifier)
    (D : list PHIDetection) :
  map category (prohibited_detections self D) =
  filter (is_prohibited (rules self)) (map category D).
Proof.
  unfold prohibited_detections.
  induction D as [|d D IH]; simpl; [reflexivity|].
  destruct (is_prohibited _ _); simpl; now rewrite IH.
Qed.

Lemma has_prohibited_categories (self : HIPAAVerifier)
    (D : list PHIDetection) :
  has_prohibited self D =
  existsb (is_prohibited (rules self)) (map category D).
Proof.
  unfold has_prohibited.
  induction D as [|d D IH]; simpl; [reflexivity|]. now rewrite IH.
Qed.

(** C10.  Two detection lists with the same sequence of categories get the
    same status, the same violation count and the same violated
    categories, whatever their values, spans and confidences. *)
Theorem verdict_depends_on_categories_only (O : Py.SetOrder)
    (self : HIPAAVerifier) (D1 D2 : list PHIDetection) :
  map category D1 = map category D2 ->
  status (verify O self D1) = status (verify O self D2) /\
  option_map num_violations (Verifier.violations (verify O self D1)) =
    option_map num_violations (Verifier.violations (verify O self D2)) /\
  option_map categories_violated (Verifier.violations (verify O self D1)) =
    option_map categories_violated (Verifier.violations (verify O self D2)).
Proof.
  intros Hcat.
  assert (Hp : has_prohibited self D1 = has_prohibited self D2)
    by (now rewrite !has_prohibited_categories, Hcat).
  destruct (has_prohibited self D2) eqn:Hp2.
  - destruct (verify_violation O self D1 Hp) as (-> & _ & -> & _).
    destruct (verify_violation O self D2 Hp2) as (-> & _ & -> & _).
    unfold option_map. rewrite !explanation_num, !explanation_categories.
    rewrite <- (length_map category (prohibited_detections self D1)).
    rewrite <- (length_map category (prohibited_detections self D2)).
    now rewrite !prohibited_categories_filter, Hcat.
  - now rewrite (verify_compliant O self D1 Hp),
                (verify_compliant O self D2 Hp2).
Qed.

(** A detection of confidence 0.01 violates exactly as one of confidence
    1.0 does. *)
Lemma verdict_depends_on_categories_only_witness :
  map category [ssn_faint] = map category [ssn_sure] /\
  status (verify insertion_order hipaa_verifier [ssn_faint]) = VIOLATION /\
  status (verify insertion_order hipaa_verifier [ssn_faint]) =
    status (verify insertion_order hipaa_verifier [ssn_sure]).
Proof.
  split; [reflexivity|].
  split; [exact (proj1 (verify_violation insertion_order hipaa_verifier
                          [ssn_faint] eq_refl))|].
  exact (proj1 (verdict_depends_on_categories_only insertion_order
                  hipaa_verifier [ssn_faint] [ssn_sure] eq_refl)).
Defined.

(** ** Rules attached to a violation *)

(** The rule id of the [k]-th category of the catalogue (from 0). *)
Definition rule_id_at (k : nat) : string := "R" ^ Py.str_int (Z.of_nat (S k)).

Ltac catalogue_cases k H :=
  first
    [ destruct H as [<- | H];
      [ exists k; eexists;
        split; [reflexivity|];
        split; [vm_compute; reflexivity|];
        split; [reflexivity|];
        split; [reflexivity|];
        left; reflexivity
      | catalogue_cases (S k) H ]
    | destruct H ].

(** Each of the 18 categories has its absolute rule, numbered by the
    position of the category in the catalogue, among the rules that
    [get_rules_for_category] returns for it. *)
Lemma absolute_rule_of_category (c : string) :
  In c hipaa_v1_names ->
  exists k rule,
    nth_error hipaa_v1_names k = Some c /\
    get_rule_by_id (rules hipaa_verifier) (rule_id_at k) = Some rule /\
    categories rule = [c] /\
    prohibition_type rule = "absolute" /\
    In rule (get_rules_for_category (rules hipaa_verifier) c).
Proof.
  intros H. unfold hipaa_v1_names in H. simpl in H.
  catalogue_cases 0%nat H.
Qed.

(** C6.  For a detection of [D] whose category is prohibited, the violation
    record built for it is in the report, its [violated_rules] is not
    empty, and it includes the absolute rule declared for exactly that
    category, whose id is R(k+1) for the k-th category of the catalogue
    (counting from 0). *)
Theorem violated_rules_include_absolute_rule (O : Py.SetOrder)
    (D : list PHIDetection) (d : PHIDetection) :
  In d D ->
  In (category d) hipaa_v1_names ->
  let record := violation_of hipaa_verifier d in
  In record
     (Rules.violations
        (create_violation_explanation O D (rules hipaa_verifier))) /\
  v_category record = category d /\
  violated_rules record <> [] /\
  exists k rule,
    nth_error hipaa_v1_names k = Some (category d) /\
    get_rule_by_id (rules hipaa_verifier) (rule_id_at k) = Some rule /\
    id rule = rule_id_at k /\
    categories rule = [category d] /\
    prohibition_type rule = "absolute" /\
    In {| r_id := id rule; r_name := name rule;
          r_description := description rule |}
       (violated_rules record).
Proof.
  intros Hd Hc record.
  destruct (absolute_rule_of_category _ Hc)
    as (k & rule & Hk & Hid & Hcats & Habs & Hin).
  assert (Href : In {| r_id := id rule; r_name := name rule;
                       r_description := description rule |}
                    (violated_rules record)).
  { unfold record, violation_of. simpl violated_rules.
    apply (in_map (fun r => {| r_id := id r; r_name := name r;
                               r_description := description r |})).
    exact Hin. }
  split.
  - rewrite explanation_violations. apply in_map.
    unfold prohibited_detections. apply filter_In. split; auto.
    unfold is_prohibited. now apply str_in_In.
  - split; [reflexivity|]. split.
    + intros E. rewrite E in Href. destruct Href.
    + exists k, rule. repeat split; auto.
      unfold get_rule_by_id in Hid. apply find_some in Hid as [_ E].
      now apply String.eqb_eq in E.
Qed.

(** A detection of category SSN carries rule R7. *)
Lemma violated_rules_include_absolute_rule_witness :
  In ssn_sure [john; ssn_sure] /\
  In (category ssn_sure) hipaa_v1_names /\
  violated_rules (violation_of hipaa_verifier ssn_sure) =
    [ {| r_id := "R7"; r_name := "Prohibition of SSN";
         r_description := "Social Security numbers must be removed" |} ] /\
  In (violation_of hipaa_verifier ssn_sure)
     (Rules.violations
        (create_violation_explanation insertion_order [john; ssn_sure]
           (rules hipaa_verifier))).
Proof.
  assert (H1 : In ssn_sure [john; ssn_sure]) by (simpl; auto).
  assert (H2 : In (category ssn_sure) hipaa_v1_names)
    by (simpl; repeat (try (left; reflexivity); right)).
  split; [exact H1|]. split; [exact H2|]. split; [reflexivity|].
  exact (proj1 (violated_rules_include_absolute_rule insertion_order
                  [john; ssn_sure] ssn_sure H1 H2)).
Defined.

(** Every record of a report is the record of a prohibited detection of the
    input, in input order. *)
Lemma report_records (O : Py.SetOrder) (D : list PHIDetection) :
  Rules.violations (create_violation_explanation O D (rules hipaa_verifier)) =
  map (violation_of hipaa_verifier)
      (filter (fun d => Py.str_in (category d) hipaa_v1_names) D).
Proof. apply explanation_violations. Qed.

(** ** The violated categories *)

(** With a set that iterates latest insertion first, NAMES then SSN come
    back as SSN, NAMES: not the order of first occurrence. *)
Lemma categories_violated_order_counterexample :
  status (verify reversed_order hipaa_verifier [john_smith; ssn_sure])
    = VIOLATION /\
  option_map categories_violated
    (Verifier.violations
       (verify reversed_order hipaa_verifier [john_smith; ssn_sure]))
    = Some [ "SSN"; "NAMES" ] /\
  first_occurrences
    (map category (prohibited_detections hipaa_verifier
                     [john_smith; ssn_sure]))
    = [ "NAMES"; "SSN" ] /\
  option_map categories_violated
    (Verifier.violations
       (verify reversed_order hipaa_verifier [john_smith; ssn_sure]))
    <> Some (first_occurrences
               (map category (prohibited_detections hipaa_verifier
                                [john_smith; ssn_sure]))).
Proof.
  assert (Hp : has_prohibited hipaa_verifier [john_smith; ssn_sure] = true)
    by reflexivity.
  destruct (verify_violation reversed_order hipaa_verifier _ Hp)
    as (Hs & _ & Hr & _).
  rewrite Hs, Hr. repeat split; try reflexivity. discriminate.
Qed.

(** C2, as the code has it.  When [verify] returns VIOLATION,
    [categories_violated] holds every violated category exactly once: it is
    a duplicate-free rearrangement of the violated categories taken at
    their first occurrence in [D]; the order is that of the set
    iteration. *)
Theorem categories_violated_distinct (O : Py.SetOrder)
    (D : list PHIDetection) :
  status (verify O hipaa_verifier D) = VIOLATION ->
  exists report,
    Verifier.violations (verify O hipaa_verifier D) = Some report /\
    NoDup (categories_violated report) /\
    (forall c, In c (categories_violated report) <->
               exists d, In d D /\ category d = c /\ In c hipaa_v1_names) /\
    Permutation
      (categories_violated report)
      (first_occurrences
         (map category (prohibited_detections hipaa_verifier D))).
Proof.
  intros Hs. apply status_violation_report in Hs as [_ Hr].
  eexists. split; [exact Hr|]. rewrite explanation_categories.
  split; [apply Py.list_set_NoDup|]. split.
  - intros c. rewrite Py.list_set_In, in_map_iff.
    unfold prohibited_detections. split.
    + intros (d & E & Hd). apply filter_In in Hd as [Hd Hp].
      exists d. repeat split; auto. subst c.
      unfold is_prohibited in Hp. now apply str_in_In in Hp.
    + intros (d & Hd & E & Hc). exists d. split; auto.
      apply filter_In. split; auto. unfold is_prohibited.
      apply str_in_In. now rewrite E.
  - apply NoDup_Permutation.
    + apply Py.list_set_NoDup.
    + apply first_occurrences_NoDup.
    + intros c. now rewrite Py.list_set_In, first_occurrences_In.
Qed.

Lemma categories_violated_distinct_witness :
  status (verify reversed_order hipaa_verifier
            [john; john_smith; ssn_sure]) = VIOLATION /\
  exists report,
    Verifier.violations
      (verify reversed_order hipaa_verifier [john; john_smith; ssn_sure])
      = Some report /\
    NoDup (categories_violated report) /\
    Permutation (categories_violated report) [ "NAMES"; "SSN" ].
Proof.
  split; [exact (sample_violation reversed_order)|].
  destruct (categories_violated_distinct reversed_order
              [john; john_smith; ssn_sure] (sample_violation reversed_order))
    as (report & Hr & Hn & _ & Hperm).
  exists report. split; [exact Hr|]. split; [exact Hn|]. exact Hperm.
Defined.

(** ** [verify] on run-time objects *)

(** Some detection object has a prohibited category name. *)
Definition prohibited_obj (self : HIPAAVerifier) (d : RawDetection) : bool :=
  match raw_category d with
  | Json.JStr c => is_prohibited (rules self) c
  | _ => false
  end.

Definition has_prohibited_obj (self : HIPAAVerifier)
    (ds : list RawDetection) : bool :=
  existsb (prohibited_obj self) ds.

(** The category names among the categories of detection objects. *)
Definition category_names (ds : list RawDetection) : list string :=
  flat_map (fun d => match raw_category d with
                     | Json.JStr c => [c]
                     | _ => []
                     end) ds.

(** Typed detections with the same category names. *)
Definition named (ds : list RawDetection) : list PHIDetection :=
  map (fun c => {| category := c; value := ""; start := 0; end_ := 0;
                   confidence := 1%float |})
      (category_names ds).

(** The COMPLIANT result for [entities]. *)
Definition compliant_obj (self : HIPAAVerifier) (entities : Entities)
  : ResultObj :=
  {| obj_status := COMPLIANT;
     obj_entities := entities;
     obj_proof := Py.join Py.newline
                    (compliant_header ++
                     map clear_line (get_prohibited_categories (rules self)));
     obj_report := None;
     obj_metadata := [ ("solver_result", "sat") ] |}.

(** The ERROR result of [verify_text] for an exception text. *)
Definition error_obj (proof_text reason : string) : ResultObj :=
  {| obj_status := ERROR;
     obj_entities := Detections [];
     obj_proof := proof_text;
     obj_report := None;
     obj_metadata := [ ("error", reason) ] |}.

Lemma category_set_hashable (ds : list RawDetection) :
  forallb (fun d => hashable (raw_category d)) ds = true ->
  category_set (Detections ds) = Py.Return (map raw_category ds).
Proof.
  unfold category_set. cbn [detection_objects Py.bind].
  induction ds as [|d ds IH]; cbn [forallb comprehension map]; intros H;
    [reflexivity|].
  apply andb_true_iff in H as [Hd Hds].
  rewrite Hd. cbn [Py.bind]. now rewrite (IH Hds).
Qed.

Lemma category_set_unhashable (ds1 ds2 : list RawDetection)
    (d : RawDetection) :
  forallb (fun d => hashable (raw_category d)) ds1 = true ->
  hashable (raw_category d) = false ->
  category_set (Detections (ds1 ++ d :: ds2)) =
  Py.Raise (Py.Exn Py.TypeError
              ("unhashable type: '" ^ Json.type_name (raw_category d) ^ "'")).
Proof.
  unfold category_set. cbn [detection_objects Py.bind]. intros H1 Hd.
  induction ds1 as [|a ds1 IH]; cbn [app comprehension].
  - now rewrite Hd.
  - cbn [forallb] in H1. apply andb_true_iff in H1 as [Ha H1].
    rewrite Ha. cbn [Py.bind]. now rewrite (IH H1).
Qed.

Lemma str_in_values_names (c : string) (ds : list RawDetection) :
  str_in_values c (map raw_category ds) =
  Py.str_in c (map category (named ds)).
Proof.
  unfold named, str_in_values, Py.str_in, category_names.
  rewrite map_map. cbn [category]. rewrite map_id.
  induction ds as [|d ds IH]; cbn [map existsb flat_map]; [reflexivity|].
  rewrite existsb_app, <- IH. unfold equals_str.
  destruct (raw_category d); cbn [existsb]; try reflexivity.
  now rewrite orb_false_r, String.eqb_sym.
Qed.

Lemma constraints_pointwise (self : HIPAARules) (values : list Json.json)
    (detected : list string) (solver : Z3.Solver) :
  (forall c, str_in_values c values = Py.str_in c detected) ->
  forall cv : Py.dict Z3.expr,
    fold_left (fun s '(category, var) =>
                 if str_in_values category values
                 then Z3.add s (Z3.Eq var (Z3.BoolVal true))
                 else Z3.add s (Z3.Eq var (Z3.BoolVal false)))
              cv solver =
    fold_left (fun s '(category, var) =>
                 if Py.str_in category detected
                 then Z3.add s (Z3.Eq var (Z3.BoolVal true))
                 else Z3.add s (Z3.Eq var (Z3.BoolVal false)))
              cv solver.
Proof.
  intros H cv. apply fold_left_pointwise. intros s [c var]. now rewrite H.
Qed.

(** On hashable categories the constraints are those of typed detections
    with the same category names. *)
Lemma create_z3_constraints_obj_named (self : HIPAARules)
    (ds : list RawDetection) (solver : Z3.Solver) :
  forallb (fun d => hashable (raw_category d)) ds = true ->
  create_z3_constraints_obj self (Detections ds) solver =
  Py.Return (create_z3_constraints self (named ds) solver).
Proof.
  intros H. unfold create_z3_constraints_obj, create_z3_constraints.
  rewrite (category_set_hashable ds H). cbn [Py.bind].
  now rewrite (constraints_pointwise self _ (map category (named ds)) solver
                 (fun c => str_in_values_names c ds)).
Qed.

Lemma has_prohibited_named (self : HIPAAVerifier) (ds : list RawDetection) :
  has_prohibited self (named ds) = has_prohibited_obj self ds.
Proof.
  unfold has_prohibited, has_prohibited_obj, named, category_names.
  induction ds as [|d ds IH]; cbn [flat_map map existsb]; [reflexivity|].
  rewrite map_app, existsb_app, IH. unfold prohibited_obj.
  destruct (raw_category d); cbn [map existsb category]; try reflexivity.
  now rewrite orb_false_r.
Qed.

(** The records and the count of a report over detection objects. *)
Lemma explanation_obj_detections (O : Py.SetOrder) (self : HIPAAVerifier)
    (ds : list RawDetection) :
  exists report,
    create_violation_explanation_obj O (Detections ds) (rules self) =
      Py.Return report /\
    obj_num_violations report =
      List.length (filter (prohibited_obj self) ds) /\
    List.length (obj_violations report) = obj_num_violations report /\
    map obj_value (obj_violations report) =
      map raw_value (filter (prohibited_obj self) ds) /\
    obj_categories_violated report =
      Py.list_set O (category_names (filter (prohibited_obj self) ds)).
Proof.
  unfold create_violation_explanation_obj. cbn [detection_objects Py.bind].
  eexists. split; [reflexivity|]. cbn [obj_num_violations obj_violations
                                       obj_categories_violated].
  set (step := fun (violations : list ViolationObj) detection => _).
  assert (Hfold : forall acc,
    List.length (fold_left step ds acc) =
      (List.length acc + List.length (filter (prohibited_obj self) ds))%nat /\
    map obj_value (fold_left step ds acc) =
      map obj_value acc ++ map raw_value (filter (prohibited_obj self) ds) /\
    map obj_category (fold_left step ds acc) =
      map obj_category acc ++
      category_names (filter (prohibited_obj self) ds)).
  { induction ds as [|d ds IH]; intros acc; cbn [fold_left filter].
    - cbn. rewrite !app_nil_r. repeat split; lia.
    - destruct (IH (step acc d)) as (H1 & H2 & H3).
      rewrite H1, H2, H3. clear IH H1 H2 H3.
      unfold category_names. cbn [flat_map]. fold (category_names).
      unfold prohibited_obj. subst step. cbv beta.
      destruct (raw_category d) eqn:Ec; try (repeat split; reflexivity).
      destruct (is_prohibited (rules self) s) eqn:Ep;
        [|repeat split; reflexivity].
      cbn [filter flat_map]. rewrite Ec.
      rewrite length_app, !map_app. cbn [List.length map app obj_value
                                          obj_category].
      rewrite <- !app_assoc. cbn [app].
      repeat split; lia. }
  destruct (Hfold []) as (H1 & H2 & H3). cbn in H1, H2, H3.
  rewrite H1, H2, H3. auto.
Qed.

(** The outcome of [verify] on a list of detection objects whose
    categories can be hashed. *)
Lemma verify_obj_detections (O : Py.SetOrder) (repr : Json.json -> string)
    (self : HIPAAVerifier) (ds : list RawDetection) :
  forallb (fun d => hashable (raw_category d)) ds = true ->
  exists result,
    verify_obj O repr self (Detections ds) = Py.Return result /\
    obj_entities result = Detections ds /\
    obj_status result =
      (if has_prohibited_obj self ds then VIOLATION else COMPLIANT) /\
    (has_prohibited_obj self ds = false ->
     result = compliant_obj self (Detections ds)) /\
    (has_prohibited_obj self ds = true ->
     exists report,
       obj_report result = Some report /\
       create_violation_explanation_obj O (Detections ds) (rules self) =
         Py.Return report).
Proof.
  intros H. unfold verify_obj.
  rewrite (create_z3_constraints_obj_named (rules self) ds _ H).
  cbn [Py.bind].
  destruct (create_z3_constraints (rules self) (named ds) Z3.Solver_new)
    as [cv solver] eqn:E.
  pose proof (decision_outcome self (named ds) cv solver E _ eq_refl) as Hc.
  cbv zeta in Hc. cbv zeta. rewrite Hc, has_prohibited_named.
  destruct (has_prohibited_obj self ds) eqn:Hp.
  - destruct (explanation_obj_detections O self ds) as (report & Hr & _).
    rewrite Hr. cbn [Py.bind]. eexists. split; [reflexivity|].
    cbn [obj_entities obj_status obj_report].
    repeat split; try discriminate. intros _. eauto.
  - cbn [detection_objects Py.bind]. eexists. split; [reflexivity|].
    cbn [obj_entities obj_status]. repeat split; try discriminate.
    intros _. unfold compliant_obj. f_equal. f_equal.
    rewrite (fold_left_snoc
               (fun cat =>
                  [ "  " ^ cat ^ ": " ^
                    (if existsb (fun e => equals_str (raw_category e) cat) ds
                     then "✗ DETECTED" else "✓ Clear") ])).
    f_equal. rewrite flat_map_concat_map.
    rewrite (map_ext_in _ (fun cat => [clear_line cat])).
    + generalize (get_prohibited_categories (rules self)).
      induction l; simpl; congruence.
    + intros cat Hcat.
      destruct (existsb _ ds) eqn:Ex; [|reflexivity].
      exfalso. apply existsb_exists in Ex as (d & Hd & Hc').
      assert (has_prohibited_obj self ds = true); [|congruence].
      apply existsb_exists. exists d. split; auto.
      unfold prohibited_obj, equals_str in *.
      destruct (raw_category d); try discriminate.
      apply String.eqb_eq in Hc'. subst. unfold is_prohibited.
      now apply str_in_In.
Qed.

Lemma verify_obj_unhashable (O : Py.SetOrder) (repr : Json.json -> string)
    (self : HIPAAVerifier) (ds1 ds2 : list RawDetection) (d : RawDetection) :
  forallb (fun d => hashable (raw_category d)) ds1 = true ->
  hashable (raw_category d) = false ->
  verify_obj O repr self (Detections (ds1 ++ d :: ds2)) =
  Py.Raise (Py.Exn Py.TypeError
              ("unhashable type: '" ^ Json.type_name (raw_category d) ^ "'")).
Proof.
  intros H1 Hd. unfold verify_obj, create_z3_constraints_obj.
  now rewrite (category_set_unhashable ds1 ds2 d H1 Hd).
Qed.

Lemma first_failure {A : Type} (p : A -> bool) (xs : list A) :
  forallb p xs = false ->
  exists xs1 x xs2,
    xs = xs1 ++ x :: xs2 /\ forallb p xs1 = true /\ p x = false.
Proof.
  induction xs as [|a xs IH]; cbn [forallb]; [discriminate|].
  destruct (p a) eqn:Ea; cbn [andb].
  - intros H. destruct (IH H) as (xs1 & x & xs2 & -> & H1 & Hx).
    exists (a :: xs1), x, xs2. cbn [forallb]. rewrite Ea. auto.
  - intros _. exists [], a, xs. auto.
Qed.

(** [verify] on an object that is not a list of detections. *)
Lemma verify_obj_other (O : Py.SetOrder) (repr : Json.json -> string)
    (self : HIPAAVerifier) (obj : Json.json) :
  match Json.iter obj with
  | Py.Raise e => verify_obj O repr self (Other obj) = Py.Raise e
  | Py.Return [] =>
      verify_obj O repr self (Other obj) =
      Py.Return (compliant_obj self (Other obj))
  | Py.Return (d :: _) =>
      verify_obj O repr self (Other obj) =
      Py.Raise (Py.Exn Py.AttributeError
                  ("'" ^ Json.type_name d
                       ^ "' object has no attribute 'category'"))
  end.
Proof.
  destruct (Json.iter obj) as [[|d rest]|e] eqn:Ei.
  - unfold verify_obj.
    assert (Hc : create_z3_constraints_obj (rules self) (Other obj)
                   Z3.Solver_new =
                 Py.Return (create_z3_constraints (rules self) []
                              Z3.Solver_new)).
    { unfold create_z3_constraints_obj, category_set, detection_objects.
      rewrite Ei. reflexivity. }
    rewrite Hc. cbn [Py.bind].
    destruct (create_z3_constraints (rules self) [] Z3.Solver_new)
      as [cv solver] eqn:E.
    pose proof (decision_outcome self [] cv solver E _ eq_refl) as Hd.
    cbv zeta in Hd. cbv zeta. rewrite Hd. cbn [has_prohibited existsb].
    unfold detection_objects. rewrite Ei. cbn [Py.bind].
    unfold compliant_obj. f_equal. f_equal. f_equal.
    rewrite (fold_left_snoc (fun cat => [ "  " ^ cat ^ ": " ^ "✓ Clear" ])).
    f_equal.
  - unfold verify_obj, create_z3_constraints_obj, category_set,
      detection_objects. rewrite Ei. reflexivity.
  - unfold verify_obj, create_z3_constraints_obj, category_set,
      detection_objects. rewrite Ei. reflexivity.
Qed.

(** Whatever [verify] raises is an instance of [Exception]: a TypeError
    (an object that cannot be iterated, a category that cannot be hashed)
    or an AttributeError (an element without a category). *)
Lemma verify_obj_raises (O : Py.SetOrder) (repr : Json.json -> string)
    (self : HIPAAVerifier) (entities : Entities) (e : Py.exn) :
  verify_obj O repr self entities = Py.Raise e ->
  (Py.exn_cls e = Py.TypeError \/ Py.exn_cls e = Py.AttributeError) /\
  Py.is_Exception (Py.exn_cls e) = true /\
  match entities with
  | Detections ds => forallb (fun d => hashable (raw_category d)) ds = false
  | Other obj => Json.iter obj <> Py.Return []
  end.
Proof.
  intros H. destruct entities as [ds|obj].
  - destruct (forallb (fun d => hashable (raw_category d)) ds) eqn:Hh.
    + destruct (verify_obj_detections O repr self ds Hh) as (r & Hr & _).
      congruence.
    + destruct (first_failure _ _ Hh) as (ds1 & d & ds2 & -> & H1 & Hd).
      rewrite (verify_obj_unhashable O repr self ds1 ds2 d H1 Hd) in H.
      injection H as <-. auto.
  - pose proof (verify_obj_other O repr self obj) as Ho.
    destruct (Json.iter obj) as [[|d rest]|x] eqn:Ei.
    + congruence.
    + rewrite Ho in H. injection H as <-. repeat split; auto. discriminate.
    + rewrite Ho in H. injection H as <-.
      assert (Py.exn_cls x = Py.TypeError).
      { destruct obj; cbn in Ei; try discriminate; now injection Ei as <-. }
      rewrite H. repeat split; auto. discriminate.
Qed.

(** *** Agreement with [verify] on detections of the declared types *)

Lemma create_z3_constraints_categories (self : HIPAARules)
    (D1 D2 : list PHIDetection) (solver : Z3.Solver) :
  map category D1 = map category D2 ->
  create_z3_constraints self D1 solver = create_z3_constraints self D2 solver.
Proof. intros H. unfold create_z3_constraints. now rewrite H. Qed.

Lemma named_detection_obj (D : list PHIDetection) :
  map category (named (map detection_obj D)) = map category D.
Proof.
  unfold named, category_names. rewrite map_map. cbn [category].
  rewrite map_id. induction D as [|d D IH]; cbn [map flat_map];
    [reflexivity|]. cbn [detection_obj raw_category app]. now rewrite IH.
Qed.

Lemma hashable_detection_obj (D : list PHIDetection) :
  forallb (fun d => hashable (raw_category d)) (map detection_obj D) = true.
Proof. induction D as [|d D IH]; cbn; auto. Qed.

Lemma explanation_obj_typed (O : Py.SetOrder) (D : list PHIDetection)
    (R : HIPAARules) :
  create_violation_explanation_obj O (Detections (map detection_obj D)) R =
  Py.Return (report_obj (create_violation_explanation O D R)).
Proof.
  unfold create_violation_explanation_obj, create_violation_explanation.
  cbn [detection_objects Py.bind]. f_equal.
  set (fo := fun (violations : list ViolationObj) (detection : RawDetection)
             => _).
  set (ft := fun (violations : list Violation) (detection : PHIDetection)
             => _).
  assert (Hfold : forall acc,
            fold_left fo (map detection_obj D) (map violation_obj acc) =
            map violation_obj (fold_left ft D acc)).
  { induction D as [|d D IH]; intros acc; cbn [map fold_left];
      [reflexivity|].
    rewrite <- IH. f_equal. subst fo ft. cbv beta.
    cbn [detection_obj raw_category raw_value raw_start raw_end
         raw_confidence].
    destruct (is_prohibited R (category d)); [|reflexivity].
    now rewrite map_app. }
  specialize (Hfold []). cbn [map] in Hfold. rewrite Hfold.
  unfold report_obj. cbn [num_violations Rules.violations
                          categories_violated].
  rewrite length_map, map_map. reflexivity.
Qed.

Lemma violation_lines_obj_typed (repr : Json.json -> string) (v : Violation) :
  violation_lines_obj repr (violation_obj v) = violation_lines v.
Proof. reflexivity. Qed.

Lemma existsb_detection_obj (cat : string) (D : list PHIDetection) :
  existsb (fun e => equals_str (raw_category e) cat) (map detection_obj D) =
  existsb (fun e => String.eqb (category e) cat) D.
Proof. induction D as [|d D IH]; cbn; [reflexivity | now rewrite IH]. Qed.

Lemma category_lines_typed (D : list PHIDetection) (cats init : list string) :
  fold_left
    (fun lines cat =>
       let detected :=
         existsb (fun e => equals_str (raw_category e) cat)
                 (map detection_obj D) in
       let status := if detected then "✗ DETECTED" else "✓ Clear" in
       lines ++ [ "  " ^ cat ^ ": " ^ status ])
    cats init =
  fold_left
    (fun lines cat =>
       let detected :=
         existsb (fun e => String.eqb (category e) cat) D in
       let status := if detected then "✗ DETECTED" else "✓ Clear" in
       lines ++ [ "  " ^ cat ^ ": " ^ status ])
    cats init.
Proof.
  apply fold_left_pointwise. intros lines cat. cbv zeta.
  now rewrite existsb_detection_obj.
Qed.

(** On a list of detections with fields of the declared types, [verify]
    on objects is [verify]. *)
Lemma verify_obj_typed (O : Py.SetOrder) (repr : Json.json -> string)
    (self : HIPAAVerifier) (D : list PHIDetection) :
  verify_obj O repr self (Detections (map detection_obj D)) =
  Py.Return (result_obj (verify O self D)).
Proof.
  unfold verify_obj.
  rewrite (create_z3_constraints_obj_named (rules self) _ _
             (hashable_detection_obj D)).
  rewrite (create_z3_constraints_categories (rules self) _ D _
             (named_detection_obj D)).
  cbn [Py.bind]. unfold verify.
  destruct (create_z3_constraints (rules self) D Z3.Solver_new)
    as [cv solver]. cbv zeta.
  match goal with |- context [Z3.check ?s] => destruct (Z3.check s) end.
  - cbn [detection_objects Py.bind]. unfold result_obj.
    cbn [status entities proof Verifier.violations metadata option_map].
    pose proof (category_lines_typed D) as Hl. cbv zeta in Hl.
    now rewrite Hl.
  - rewrite explanation_obj_typed. cbn [Py.bind]. unfold result_obj.
    cbn [status entities proof Verifier.violations metadata option_map].
    f_equal. f_equal. f_equal.
    unfold report_obj at 1 2 3. cbn [obj_violations obj_num_violations
                                     obj_categories_violated].
    f_equal. f_equal. f_equal.
    rewrite (fold_left_snoc (violation_lines_obj repr)).
    rewrite (fold_left_snoc violation_lines).
    f_equal. rewrite !flat_map_concat_map, map_map. reflexivity.
  - cbn [detection_objects Py.bind]. unfold result_obj.
    cbn [status entities proof Verifier.violations metadata option_map].
    pose proof (category_lines_typed D) as Hl. cbv zeta in Hl.
    now rewrite Hl.
Qed.

Lemma verify_obj_status (O : Py.SetOrder) (repr : Json.json -> string)
    (self : HIPAAVerifier) (entities : Entities) (result : ResultObj) :
  verify_obj O repr self entities = Py.Return result ->
  obj_status result <> ERROR.
Proof.
  intros H. destruct entities as [ds|obj].
  - destruct (forallb (fun d => hashable (raw_category d)) ds) eqn:Hh.
    + destruct (verify_obj_detections O repr self ds Hh)
        as (r & Hr & _ & Hs & _).
      rewrite Hr in H. injection H as <-. rewrite Hs.
      destruct (has_prohibited_obj self ds); discriminate.
    + destruct (first_failure _ _ Hh) as (ds1 & d & ds2 & -> & H1 & Hd).
      rewrite (verify_obj_unhashable O repr self ds1 ds2 d H1 Hd) in H.
      discriminate.
  - pose proof (verify_obj_other O repr self obj) as Ho.
    destruct (Json.iter obj) as [[|d rest]|x]; rewrite Ho in H;
      try discriminate.
    injection H as <-. discriminate.
Qed.

(** A stand-in for the text Python gives floats, lists and dicts; the
    samples below print none of them. *)
Definition sample_repr : Json.json -> string := fun _ => "?".

(** ** [verify_text] *)




(** ** The wire constructor *)

(** A detection record on the wire: the category is required, the other
    members may be left out. *)
Record WireRecord : Type := {
  w_category : string;
  w_value : option string;
  w_start : option Z;
  w_end : option Z;
  w_confidence : option float
}.

Definition member {A : Type} (key : string) (inj : A -> Json.json)
    (v : option A) : list (string * Json.json) :=
  match v with
  | Some a => [ (key, inj a) ]
  | None => []
  end.

(** The JSON object of a wire record; omitted members are absent. *)
Definition encode (w : WireRecord) : Json.json :=
  Json.JDict
    (("category", Json.JStr (w_category w))
       :: member "value" Json.JStr (w_value w)
       ++ member "start" Json.JInt (w_start w)
       ++ member "end" Json.JInt (w_end w)
       ++ member "confidence" Json.JFloat (w_confidence w)).

Definition or_default {A : Type} (v : option A) (default : A) : A :=
  match v with Some a => a | None => default end.

(** The detection of a wire record, omitted members at their defaults. *)
Definition with_defaults (w : WireRecord) : PHIDetection :=
  {| category := w_category w;
     value := or_default (w_value w) "";
     start := or_default (w_start w) 0%Z;
     end_ := or_default (w_end w) 0%Z;
     confidence := or_default (w_confidence w) 1%float |}.

(** The detection object read from any JSON object that has a "category"
    member: whatever the members hold and in whatever order they come,
    omitted ones at their defaults, others ignored. *)
Definition record_of (category : Json.json)
    (members : list (string * Json.json)) : RawDetection :=
  {| raw_category := category;
     raw_value := or_default (Py.dict_get members "value") (Json.JStr "");
     raw_start := or_default (Py.dict_get members "start") (Json.JInt 0);
     raw_end := or_default (Py.dict_get members "end") (Json.JInt 0);
     raw_confidence :=
       or_default (Py.dict_get members "confidence") (Json.JFloat 1%float) |}.

Definition read_record (item : Json.json) : option RawDetection :=
  match item with
  | Json.JDict members =>
      option_map (fun c => record_of c members)
                 (Py.dict_get members "category")
  | _ => None
  end.

Fixpoint read_records (items : list Json.json)
  : option (list RawDetection) :=
  match items with
  | [] => Some []
  | item :: rest =>
      match read_record item, read_records rest with
      | Some r, Some rs => Some (r :: rs)
      | _, _ => None
      end
  end.



Definition is_scalar (j : Json.json) : bool :=
  match j with
  | Json.JNull | Json.JBool _ | Json.JInt _ | Json.JFloat _ => true
  | _ => false
  end.

(** A [json.loads] that rejects every text. *)
Definition loads_nothing : string -> Py.outcome Json.json :=
  fun _ => Py.Raise (Py.Exn Py.JSONDecodeError "Expecting value").

Lemma raw_detection_read (item : Json.json) (r : RawDetection) :
  read_record item = Some r -> raw_detection item = Py.Return r.
Proof.
  destruct item; try discriminate. cbn [read_record].
  destruct (Py.dict_get members "category") as [c|] eqn:Ec; [|discriminate].
  intros E. injection E as <-.
  unfold raw_detection, Json.getitem, Json.get. rewrite Ec.
  cbn [Py.bind]. reflexivity.
Qed.

Lemma comprehension_read (items : list Json.json) (rs : list RawDetection) :
  read_records items = Some rs ->
  comprehension raw_detection items = Py.Return rs.
Proof.
  revert rs. induction items as [|item items IH]; intros rs;
    cbn [read_records comprehension].
  - intros E. now injection E as <-.
  - destruct (read_record item) as [r|] eqn:Er; [|discriminate].
    destruct (read_records items) as [rs'|]; [|discriminate].
    intros E. injection E as <-.
    rewrite (raw_detection_read item r Er), (IH rs' eq_refl). reflexivity.
Qed.

Lemma read_records_encode (ws : list WireRecord) :
  read_records (map encode ws) =
  Some (map detection_obj (map with_defaults ws)).
Proof.
  induction ws as [|w ws IH]; [reflexivity|].
  cbn [map read_records]. rewrite IH.
  destruct w as [c [v|] [s|] [n|] [f|]]; reflexivity.
Qed.

Lemma comprehension_encode (ws : list WireRecord) :
  comprehension raw_detection (map encode ws) =
  Py.Return (map detection_obj (map with_defaults ws)).
Proof. apply comprehension_read, read_records_encode. Qed.

Lemma comprehension_stops (rs : list RawDetection)
    (items rest : list Json.json) (item : Json.json) (e : Py.exn) :
  read_records items = Some rs ->
  raw_detection item = Py.Raise e ->
  comprehension raw_detection (items ++ item :: rest) = Py.Raise e.
Proof.
  revert rs. induction items as [|a items IH]; intros rs Hr Hi.
  - cbn [app comprehension]. rewrite Hi. reflexivity.
  - cbn [read_records] in Hr.
    destruct (read_record a) as [r|] eqn:Er; [|discriminate].
    destruct (read_records items) as [rs'|] eqn:Ers; [|discriminate].
    cbn [app comprehension].
    rewrite (raw_detection_read a r Er), (IH rs' eq_refl Hi). reflexivity.
Qed.

(** A bare list has no [get] method: the call raises before a record is
    read (tests/test_verifier.py, test_verify_from_json_direct_list, expects
    the list to be verified). *)
Lemma verify_from_json_bare_list (O : Py.SetOrder)
    (repr : Json.json -> string)
    (loads : string -> Py.outcome Json.json) (cfg : Config)
    (items : list Json.json) :
  verify_from_json O repr loads cfg (Json.JList items) =
  Py.Raise (Py.Exn Py.AttributeError "'list' object has no attribute 'get'").
Proof. reflexivity. Qed.

Lemma verify_from_json_object (O : Py.SetOrder) (repr : Json.json -> string)
    (loads : string -> Py.outcome Json.json) (cfg : Config)
    (members : list (string * Json.json)) (source : Json.json) :
  Py.dict_get members "entities" = Some source ->
  verify_from_json O repr loads cfg (Json.JDict members) =
  (items <- Json.iter source ;;
   entities <- comprehension raw_detection items ;;
   verify_obj O repr (HIPAAVerifier_init cfg) (Detections entities)).
Proof.
  intros Hm. unfold verify_from_json. cbn [Py.bind Json.get].
  rewrite Hm. reflexivity.
Qed.




Definition names_only : WireRecord :=
  {| w_category := "NAMES"; w_value := None; w_start := None;
     w_end := None; w_confidence := None |}.






(** * Further properties of the verifier and the rule set *)

(** ** The shape of a [verify] result *)

(** X1.  [verify] hands back the detections it was given, never answers
    ERROR, and carries a violation report exactly when the status is
    VIOLATION. *)
Theorem verify_result_shape (O : Py.SetOrder) (self : HIPAAVerifier)
    (D : list PHIDetection) :
  entities (verify O self D) = D /\
  status (verify O self D) <> ERROR /\
  (status (verify O self D) = VIOLATION <->
   Verifier.violations (verify O self D) =
     Some (create_violation_explanation O D (rules self))) /\
  (status (verify O self D) = COMPLIANT <->
   Verifier.violations (verify O self D) = None).
Proof.
  destruct (has_prohibited self D) eqn:Hp.
  - destruct (verify_violation O self D Hp) as (Hs & He & Hv & _).
    rewrite Hs, He, Hv. repeat split; auto; discriminate.
  - rewrite (verify_compliant O self D Hp). simpl.
    repeat split; auto; discriminate.
Qed.

(** X2.  Whatever the configuration, the status is VIOLATION exactly when
    some detection names a category that the configuration lists with a
    true [prohibited] flag; a category listed without the flag, or with a
    false one, is never a violation. *)
Theorem verify_decision_any_config (O : Py.SetOrder) (self : HIPAAVerifier)
    (D : list PHIDetection) :
  status (verify O self D) = VIOLATION <->
  exists d cat,
    In d D /\
    In cat (config_categories (config (rules self))) /\
    cat_name cat = category d /\
    cat_prohibited cat = Some true.
Proof.
  assert (Hiff : has_prohibited self D = true <->
                 status (verify O self D) = VIOLATION).
  { destruct (verify_status_cases O self D) as [(Hp & Hs & _)|(Hp & Hs & _)];
      rewrite Hp, Hs; split; auto; discriminate. }
  rewrite <- Hiff, has_prohibited_true. unfold get_prohibited_categories.
  split.
  - intros (d & Hd & Hc). apply in_map_iff in Hc as (cat & Hn & Hcat).
    apply filter_In in Hcat as [Hcat Hflag].
    exists d, cat. repeat split; auto.
    destruct (cat_prohibited cat) as [[|]|]; congruence.
  - intros (d & cat & Hd & Hcat & Hn & Hflag).
    exists d. split; auto. rewrite <- Hn. apply in_map, filter_In.
    split; auto. now rewrite Hflag.
Qed.

Lemma has_prohibited_app (self : HIPAAVerifier) (D1 D2 : list PHIDetection) :
  has_prohibited self (D1 ++ D2) =
  has_prohibited self D1 || has_prohibited self D2.
Proof. unfold has_prohibited. apply existsb_app. Qed.

Lemma status_of_has_prohibited (O : Py.SetOrder) (self : HIPAAVerifier)
    (D : list PHIDetection) :
  status (verify O self D) =
  if has_prohibited self D then VIOLATION else COMPLIANT.
Proof.
  destruct (verify_status_cases O self D) as [(Hp & Hs & _)|(Hp & Hs & _)];
    now rewrite Hp, Hs.
Qed.

Lemma report_count (O : Py.SetOrder) (self : HIPAAVerifier)
    (D : list PHIDetection) :
  option_map num_violations (Verifier.violations (verify O self D)) =
  if has_prohibited self D
  then Some (List.length (prohibited_detections self D))
  else None.
Proof.
  destruct (has_prohibited self D) eqn:Hp.
  - destruct (verify_violation O self D Hp) as (_ & _ & Hv & _).
    rewrite Hv. cbn [option_map]. now rewrite explanation_num.
  - now rewrite (verify_compliant O self D Hp).
Qed.

(** X3.  Joining two documents: the joined list violates exactly when one
    of the parts does, so adding detections never turns a violation into
    compliance, and the violating detections of the parts add up. *)
Theorem verify_concatenation (O : Py.SetOrder) (self : HIPAAVerifier)
    (D1 D2 : list PHIDetection) :
  (status (verify O self (D1 ++ D2)) = VIOLATION <->
   status (verify O self D1) = VIOLATION \/
   status (verify O self D2) = VIOLATION) /\
  num_violations (create_violation_explanation O (D1 ++ D2) (rules self)) =
    (num_violations (create_violation_explanation O D1 (rules self)) +
     num_violations (create_violation_explanation O D2 (rules self)))%nat /\
  Rules.violations (create_violation_explanation O (D1 ++ D2) (rules self)) =
    Rules.violations (create_violation_explanation O D1 (rules self)) ++
    Rules.violations (create_violation_explanation O D2 (rules self)).
Proof.
  split.
  - rewrite !status_of_has_prohibited, has_prohibited_app.
    destruct (has_prohibited self D1), (has_prohibited self D2); simpl;
      split; auto; intros [H|H]; discriminate.
  - rewrite !explanation_num, !explanation_violations.
    unfold prohibited_detections.
    now rewrite filter_app, length_app, map_app.
Qed.

(** X4.  The order of the detections does not matter to the verdict:
    rearranging a document keeps its status and its violation count, and
    rearranges the violation records the same way. *)
Theorem verify_permutation (O : Py.SetOrder) (self : HIPAAVerifier)
    (D1 D2 : list PHIDetection) :
  Permutation D1 D2 ->
  status (verify O self D1) = status (verify O self D2) /\
  option_map num_violations (Verifier.violations (verify O self D1)) =
    option_map num_violations (Verifier.violations (verify O self D2)) /\
  Permutation
    (Rules.violations (create_violation_explanation O D1 (rules self)))
    (Rules.violations (create_violation_explanation O D2 (rules self))).
Proof.
  intros Hperm.
  assert (Hf : Permutation (prohibited_detections self D1)
                           (prohibited_detections self D2)).
  { unfold prohibited_detections. clear O.
    induction Hperm; simpl.
    - constructor.
    - destruct (is_prohibited _ _); auto.
    - destruct (is_prohibited _ (category x)), (is_prohibited _ (category y));
        auto. apply perm_swap.
    - eapply Permutation_trans; eauto. }
  assert (Hp : has_prohibited self D1 = has_prohibited self D2).
  { unfold has_prohibited.
    destruct (existsb _ D2) eqn:E2.
    - apply existsb_exists in E2 as (d & Hd & Hc). apply existsb_exists.
      exists d. split; auto.
      exact (Permutation_in d (Permutation_sym Hperm) Hd).
    - destruct (existsb _ D1) eqn:E1; auto.
      apply existsb_exists in E1 as (d & Hd & Hc).
      assert (existsb (fun d => is_prohibited (rules self) (category d)) D2
              = true); [|congruence].
      apply existsb_exists. exists d. split; auto.
      exact (Permutation_in d Hperm Hd). }
  split; [now rewrite !status_of_has_prohibited, Hp|]. split.
  - rewrite !report_count, Hp. destruct (has_prohibited self D2); auto.
    f_equal. now apply Permutation_length.
  - rewrite !explanation_violations. now apply Permutation_map.
Qed.

Lemma verify_permutation_witness :
  Permutation [john; diagnosis; ssn_sure] [ssn_sure; john; diagnosis] /\
  status (verify insertion_order hipaa_verifier [john; diagnosis; ssn_sure]) =
  status (verify insertion_order hipaa_verifier [ssn_sure; john; diagnosis]).
Proof.
  assert (H : Permutation [john; diagnosis; ssn_sure]
                          [ssn_sure; john; diagnosis]).
  { apply Permutation_sym.
    change [ssn_sure; john; diagnosis] with ([ssn_sure] ++ [john; diagnosis]).
    change [john; diagnosis; ssn_sure] with ([john; diagnosis] ++ [ssn_sure]).
    apply Permutation_app_comm. }
  split; [exact H|].
  exact (proj1 (verify_permutation insertion_order hipaa_verifier _ _ H)).
Defined.

(** ** The text of a violation proof *)

(** The line of one violated rule. *)
Definition rule_line (rule : RuleRef) : string :=
  "  Violated: " ^ r_id rule ^ " - " ^ r_description rule.

(** The block of one violation record: category, value, span, one line
    per rule, and an empty line. *)
Definition violation_block (v : Violation) : list string :=
  [ "Category: " ^ v_category v;
    "  Value: " ^ v_value v;
    "  Position: " ^ Py.str_int (fst (v_location v)) ^ "-"
                   ^ Py.str_int (snd (v_location v)) ]
  ++ map rule_line (violated_rules v)
  ++ [ "" ].

(** The whole text, from a report. *)
Definition violation_proof (report : ViolationReport) : string :=
  Py.join Py.newline
    ([ "HIPAA VIOLATION DETECTED";
       "========================================" ]
     ++ flat_map violation_block (Rules.violations report)
     ++ [ "Total violations: "
            ^ Py.str_int (Z.of_nat (num_violations report));
          "Categories: " ^ Py.join ", " (categories_violated report) ]).

Lemma flat_map_singleton {A B : Type} (f : A -> B) (xs : list A) :
  flat_map (fun x => [f x]) xs = map f xs.
Proof. induction xs; simpl; congruence. Qed.

Lemma violation_lines_block (v : Violation) :
  violation_lines v = violation_block v.
Proof.
  unfold violation_lines, violation_block. cbv zeta.
  rewrite (fold_left_snoc
             (fun rule => [ "  Violated: " ^ r_id rule ^ " - "
                              ^ r_description rule ])).
  rewrite flat_map_singleton. reflexivity.
Qed.

(** X5.  The proof of a VIOLATION result is the two header lines, then for
    each violation record, in input order, its block (category, value,
    span, one line per violated rule, an empty line), then the total and
    the violated categories separated by ", ". *)
Theorem verify_violation_proof (O : Py.SetOrder) (self : HIPAAVerifier)
    (D : list PHIDetection) :
  status (verify O self D) = VIOLATION ->
  proof (verify O self D) =
    violation_proof (create_violation_explanation O D (rules self)) /\
  Rules.violations (create_violation_explanation O D (rules self)) =
    map (violation_of self) (prohibited_detections self D).
Proof.
  intros Hs. split; [|apply explanation_violations].
  rewrite status_of_has_prohibited in Hs.
  destruct (has_prohibited self D) eqn:Hp; [clear Hs|discriminate].
  unfold verify.
  destruct (create_z3_constraints (rules self) D Z3.Solver_new)
    as [cv solver] eqn:E.
  pose proof (decision_outcome self D cv solver E _ eq_refl) as Hc.
  cbv zeta in Hc. cbv zeta. rewrite Hc, Hp. cbn [proof].
  unfold violation_proof. f_equal.
  rewrite (fold_left_snoc violation_lines).
  rewrite (flat_map_ext _ _ violation_lines_block).
  rewrite <- !app_assoc. reflexivity.
Qed.

Lemma verify_violation_proof_witness :
  status (verify insertion_order hipaa_verifier [john; john_smith; ssn_sure])
    = VIOLATION /\
  proof (verify insertion_order hipaa_verifier [john; john_smith; ssn_sure]) =
    violation_proof
      (create_violation_explanation insertion_order
         [john; john_smith; ssn_sure] (rules hipaa_verifier)).
Proof.
  split; [exact (sample_violation insertion_order)|].
  exact (proj1 (verify_violation_proof insertion_order hipaa_verifier
                  [john; john_smith; ssn_sure]
                  (sample_violation insertion_order))).
Defined.

(** ** Detections outside the prohibited categories *)

Lemma prohibited_detections_idempotent (self : HIPAAVerifier)
    (D : list PHIDetection) :
  prohibited_detections self (prohibited_detections self D) =
  prohibited_detections self D.
Proof.
  unfold prohibited_detections.
  induction D as [|d D IH]; simpl; [reflexivity|].
  destruct (is_prohibited _ (category d)) eqn:E; simpl; [|exact IH].
  now rewrite E, IH.
Qed.

Lemma explanation_unfold (O : Py.SetOrder) (self : HIPAAVerifier)
    (D : list PHIDetection) :
  create_violation_explanation O D (rules self) =
  {| num_violations := List.length (prohibited_detections self D);
     Rules.violations :=
       map (violation_of self) (prohibited_detections self D);
     categories_violated :=
       Py.list_set O (map category (prohibited_detections self D)) |}.
Proof.
  rewrite <- explanation_num with (O := O).
  rewrite <- explanation_violations with (O := O).
  rewrite <- explanation_categories with (O := O).
  reflexivity.
Qed.

(** X6.  Detections whose category is not prohibited have no effect on
    the verdict: dropping them leaves the status, the violation report,
    the proof text and the metadata as they were. *)
Theorem verify_ignores_other_categories (O : Py.SetOrder)
    (self : HIPAAVerifier) (D : list PHIDetection) :
  let kept := prohibited_detections self D in
  status (verify O self kept) = status (verify O self D) /\
  Verifier.violations (verify O self kept) =
    Verifier.violations (verify O self D) /\
  proof (verify O self kept) = proof (verify O self D) /\
  metadata (verify O self kept) = metadata (verify O self D).
Proof.
  intros kept.
  assert (Hp : has_prohibited self kept = has_prohibited self D).
  { unfold kept, has_prohibited, prohibited_detections.
    induction D as [|d D IH]; simpl; [reflexivity|].
    destruct (is_prohibited _ (category d)) eqn:E; simpl; [|exact IH].
    now rewrite E. }
  assert (He : create_violation_explanation O kept (rules self) =
               create_violation_explanation O D (rules self)).
  { rewrite !explanation_unfold. unfold kept.
    now rewrite prohibited_detections_idempotent. }
  destruct (has_prohibited self D) eqn:HpD.
  - assert (HsD : status (verify O self D) = VIOLATION)
      by (now rewrite status_of_has_prohibited, HpD).
    assert (Hsk : status (verify O self kept) = VIOLATION)
      by (now rewrite status_of_has_prohibited, Hp).
    destruct (verify_violation O self D HpD) as (_ & _ & HvD & HmD).
    destruct (verify_violation O self kept Hp) as (_ & _ & Hvk & Hmk).
    rewrite HsD, Hsk, HvD, Hvk, HmD, Hmk, He.
    rewrite (proj1 (verify_violation_proof O self D HsD)).
    rewrite (proj1 (verify_violation_proof O self kept Hsk)).
    now rewrite He.
  - rewrite (verify_compliant O self D HpD),
            (verify_compliant O self kept Hp). auto.
Qed.

(** ** The rule catalogue *)

Ltac each_rule H :=
  repeat (destruct H as [<- | H]; [ | ]); [ .. | destruct H ].

(** X7.  Rule ids identify rules: the catalogue has 20 rules with distinct
    ids, [get_rule_by_id] of the id of a catalogue rule returns that rule,
    what it returns is a catalogue rule with the id asked for, and it
    returns nothing exactly when no rule has the id. *)
Theorem get_rule_by_id_lookup (cfg : Config) :
  let R := HIPAARules_init cfg in
  List.length (get_rules R) = 20%nat /\
  NoDup (map id (get_rules R)) /\
  (forall rule, In rule (get_rules R) ->
                get_rule_by_id R (id rule) = Some rule) /\
  (forall i rule, get_rule_by_id R i = Some rule ->
                  In rule (get_rules R) /\ id rule = i) /\
  (forall i, get_rule_by_id R i = None <->
             forall rule, In rule (get_rules R) -> id rule <> i).
Proof.
  intros R. split; [reflexivity|]. split.
  { assert (E : nodup string_dec (map id (get_rules R)) = map id (get_rules R))
      by (vm_compute; reflexivity).
    rewrite <- E. apply NoDup_nodup. }
  split.
  { intros rule H. unfold R, get_rules, HIPAARules_init in H.
    cbn [_rules] in H. unfold _build_rules in H. simpl in H.
    each_rule H; vm_compute; reflexivity. }
  split.
  { intros i rule H. unfold get_rule_by_id in H.
    apply find_some in H as [Hin E]. split; auto.
    now apply String.eqb_eq in E. }
  intros i. unfold get_rule_by_id. split.
  - intros H rule Hin E.
    pose proof (find_none _ _ H rule Hin) as Hf. simpl in Hf.
    rewrite E, String.eqb_refl in Hf. discriminate.
  - intros H. destruct (find _ _) as [rule|] eqn:E; auto.
    apply find_some in E as [Hin E]. apply String.eqb_eq in E.
    now destruct (H rule Hin).
Qed.

(** A rule is an absolute prohibition. *)
Definition is_absolute (rule : HIPAARule) : bool :=
  String.eqb (prohibition_type rule) "absolute".

Lemma catalogue_rule_category (cfg : Config) (rule : HIPAARule) (c : string) :
  In rule (get_rules (HIPAARules_init cfg)) ->
  In c (categories rule) ->
  In c hipaa_v1_names.
Proof.
  intros H Hc. unfold get_rules, HIPAARules_init in H.
  cbn [_rules] in H. unfold _build_rules in H. simpl in H.
  each_rule H; simpl in Hc; destruct Hc as [<-|[]];
    simpl; repeat (try (left; reflexivity); right).
Qed.

Ltac each_category H :=
  repeat (destruct H as [<- | H]; [ | ]); [ .. | destruct H ].

(** X8.  [get_rules_for_category] returns the catalogue rules that list the
    category: none for a category outside the 18, and for each of the 18
    at most two rules of which exactly one is an absolute prohibition.  So
    a configuration that prohibits a category the catalogue does not know
    yields violation records without rules. *)
Theorem get_rules_for_category_catalogue (cfg : Config) (c : string) :
  let R := HIPAARules_init cfg in
  (forall rule, In rule (get_rules_for_category R c) <->
                In rule (get_rules R) /\ In c (categories rule)) /\
  (get_rules_for_category R c <> [] <-> In c hipaa_v1_names) /\
  (In c hipaa_v1_names ->
   List.length (filter is_absolute (get_rules_for_category R c)) = 1%nat /\
   (List.length (get_rules_for_category R c) <= 2)%nat) /\
  (~ In c hipaa_v1_names ->
   forall d, category d = c ->
     violated_rules (violation_of (HIPAAVerifier_init cfg) d) = []).
Proof.
  intros R.
  assert (Hmem : forall rule, In rule (get_rules_for_category R c) <->
                   In rule (get_rules R) /\ In c (categories rule)).
  { intros rule. unfold get_rules_for_category. rewrite filter_In.
    now rewrite str_in_In. }
  assert (Hin : In c hipaa_v1_names ->
            List.length (filter is_absolute (get_rules_for_category R c))
              = 1%nat /\
            (List.length (get_rules_for_category R c) <= 2)%nat).
  { intros H. unfold hipaa_v1_names in H. simpl in H.
    each_category H; vm_compute; split; auto. }
  assert (Hout : ~ In c hipaa_v1_names -> get_rules_for_category R c = []).
  { intros Hn. destruct (get_rules_for_category R c) as [|rule rest] eqn:E;
      auto. exfalso. apply Hn.
    destruct (proj1 (Hmem rule) (or_introl eq_refl)) as [Hr Hc].
    exact (catalogue_rule_category cfg rule c Hr Hc). }
  split; [exact Hmem|]. split.
  { split.
    - intros Hne. destruct (in_dec string_dec c hipaa_v1_names); auto.
      now destruct Hne; apply Hout.
    - intros H E. apply Hin in H as [H _]. rewrite E in H. discriminate. }
  split; [exact Hin|].
  intros Hn d Hd. unfold violation_of. cbn [violated_rules].
  rewrite Hd. change (rules (HIPAAVerifier_init cfg)) with R.
  now rewrite (Hout Hn).
Qed.

Lemma get_rules_for_category_catalogue_witness :
  In "DATES" hipaa_v1_names /\
  List.length (filter is_absolute
                 (get_rules_for_category (HIPAARules_init hipaa_v1) "DATES"))
    = 1%nat /\
  ~ In "DIAGNOSIS" hipaa_v1_names /\
  violated_rules (violation_of (HIPAAVerifier_init hipaa_v1) diagnosis) = [].
Proof.
  assert (H1 : In "DATES" hipaa_v1_names)
    by (simpl; repeat (try (left; reflexivity); right)).
  assert (H2 : ~ In "DIAGNOSIS" hipaa_v1_names).
  { intros H. simpl in H.
    repeat (destruct H as [H|H]; [discriminate|]). exact H. }
  destruct (get_rules_for_category_catalogue hipaa_v1 "DATES")
    as (_ & _ & Hin & _).
  destruct (get_rules_for_category_catalogue hipaa_v1 "DIAGNOSIS")
    as (_ & _ & _ & Hout).
  split; [exact H1|]. split; [exact (proj1 (Hin H1))|].
  split; [exact H2|]. exact (Hout H2 diagnosis eq_refl).
Defined.

(** ** The constraints handed to the solver *)

Lemma length_append (a b : string) :
  String.length (a ^ b) = (String.length a + String.length b)%nat.
Proof. induction a as [|ch a IH]; simpl; [reflexivity | now rewrite IH]. Qed.

(** Appending a suffix is injective: distinct categories get distinct
    solver constants. *)
Lemma append_suffix_inj (s a b : string) : a ^ s = b ^ s -> a = b.
Proof.
  revert b. induction a as [|ch a IH]; intros [|ch' b] E; simpl in E.
  - reflexivity.
  - apply (f_equal String.length) in E. simpl in E.
    rewrite length_append in E. lia.
  - apply (f_equal String.length) in E. simpl in E.
    rewrite length_append in E. lia.
  - injection E as -> E. f_equal. now apply IH.
Qed.

(** The equation asserted for one entry of [category_vars]. *)
Definition presence (detected : list string) (entry : string * Z3.expr)
  : Z3.expr :=
  Z3.Eq (snd entry) (Z3.BoolVal (Py.str_in (fst entry) detected)).

Lemma create_z3_constraints_unfold (self : HIPAARules)
    (D : list PHIDetection) (s : Z3.Solver) :
  fst (create_z3_constraints self D s) =
    fold_left (fun d c => Py.dict_set d c (Z3.Bool (c ^ "_detected")))
              (get_prohibited_categories self) [] /\
  Z3.assertions (snd (create_z3_constraints self D s)) =
    Z3.assertions s ++
    map (presence (map category D)) (fst (create_z3_constraints self D s)).
Proof.
  split; [reflexivity|].
  unfold create_z3_constraints. cbn [fst snd].
  rewrite constraints_assertions. f_equal.
  apply map_ext. now intros [c var].
Qed.

Lemma category_vars_entries (self : HIPAARules) (D : list PHIDetection)
    (s : Z3.Solver) (c : string) (w : Z3.expr) :
  In (c, w) (fst (create_z3_constraints self D s)) ->
  is_prohibited self c = true /\ w = Z3.Bool (c ^ "_detected").
Proof.
  intros H. rewrite (proj1 (create_z3_constraints_unfold self D s)) in H.
  apply category_vars_In in H as [[]|[Hc ->]]. split; auto.
  unfold is_prohibited. now apply str_in_In.
Qed.

(** X9.  [create_z3_constraints] returns one constant per prohibited
    category, named after it with the suffix "_detected", and asserts for
    each of them whether its category occurs among the detections; these
    assertions alone are always satisfiable, whatever was detected. *)
Theorem create_z3_constraints_satisfiable (self : HIPAARules)
    (D : list PHIDetection) :
  let made := create_z3_constraints self D Z3.Solver_new in
  (forall c, Py.dict_get (fst made) c =
             if is_prohibited self c
             then Some (Z3.Bool (c ^ "_detected")) else None) /\
  Z3.assertions (snd made) = map (presence (map category D)) (fst made) /\
  Z3.check (snd made) = Z3.sat /\
  fst (create_z3_constraints (HIPAARules_init hipaa_v1) D Z3.Solver_new) =
    map (fun c => (c, Z3.Bool (c ^ "_detected"))) hipaa_v1_names.
Proof.
  intros made.
  destruct (create_z3_constraints_unfold self D Z3.Solver_new) as [Hcv Has0].
  assert (Has : Z3.assertions (snd made) =
                map (presence (map category D)) (fst made)) by exact Has0.
  clear Has0. fold made in Hcv.
  split.
  { intros c. rewrite Hcv, category_vars_get. reflexivity. }
  split; [exact Has|]. split; [|reflexivity].
  apply check_sat_iff.
  exists (fun x =>
            existsb (fun c => String.eqb x (c ^ "_detected")
                              && Py.str_in c (map category D))
                    (get_prohibited_categories self)).
  rewrite Has. apply holds_Forall, Forall_forall.
  intros f Hf. apply in_map_iff in Hf as ([c w] & <- & Hin).
  destruct (category_vars_entries self D Z3.Solver_new c w Hin) as [Hp ->].
  unfold presence. cbn [fst snd Z3.eval].
  destruct (Py.str_in c (map category D)) eqn:Hdet.
  - apply Bool.eqb_true_iff, existsb_exists. exists c. split.
    + now apply str_in_In.
    + now rewrite String.eqb_refl, Hdet.
  - apply Bool.eqb_true_iff.
    destruct (existsb _ _) eqn:Ex; [|reflexivity].
    apply existsb_exists in Ex as (c' & _ & Hc').
    apply andb_true_iff in Hc' as [E Hdet'].
    apply String.eqb_eq, append_suffix_inj in E. subst c'. congruence.
Qed.

(** X10.  [create_z3_constraints] followed by [add_compliance_rule] makes
    the solver answer unsat exactly when some detection has a prohibited
    category, and sat otherwise: the outcome [verify] acts on. *)
Theorem add_compliance_rule_decides (O : Py.SetOrder) (self : HIPAAVerifier)
    (D : list PHIDetection) :
  let made := create_z3_constraints (rules self) D Z3.Solver_new in
  Z3.check (add_compliance_rule (rules self) (snd made) (fst made)) =
    (if has_prohibited self D then Z3.unsat else Z3.sat) /\
  (Z3.check (add_compliance_rule (rules self) (snd made) (fst made))
     = Z3.unsat <->
   status (verify O self D) = VIOLATION).
Proof.
  intros made.
  assert (Hmain : Z3.check (add_compliance_rule (rules self)
                              (snd made) (fst made)) =
                  if has_prohibited self D then Z3.unsat else Z3.sat).
  { destruct (create_z3_constraints_unfold (rules self) D Z3.Solver_new)
      as [Hcv Has0].
    assert (Has : Z3.assertions (snd made) =
                  map (presence (map category D)) (fst made)) by exact Has0.
    clear Has0. fold made in Hcv.
    unfold add_compliance_rule.
    set (pd := map snd (filter (fun '(cat, _) => is_prohibited (rules self) cat)
                               (fst made))).
    destruct (has_prohibited self D) eqn:Hp.
    - apply has_prohibited_true in Hp as (d & Hd & Hc).
      assert (Hin : In (category d, Z3.Bool (category d ^ "_detected"))
                       (fst made)).
      { apply dict_get_In. rewrite Hcv, category_vars_get.
        apply str_in_In in Hc. now rewrite Hc. }
      assert (Hpd : In (Z3.Bool (category d ^ "_detected")) pd).
      { unfold pd. apply in_map_iff.
        exists (category d, Z3.Bool (category d ^ "_detected")).
        split; auto. apply filter_In. split; auto.
        unfold is_prohibited. now apply str_in_In. }
      assert (Hne : Py.truthy pd = true)
        by (destruct pd; [destruct Hpd | reflexivity]).
      rewrite Hne. apply check_unsat_iff. intros m.
      destruct (Z3.holds m _) eqn:Hm; auto. exfalso.
      rewrite assertions_add, Has in Hm.
      apply holds_Forall in Hm. rewrite Forall_app in Hm.
      destruct Hm as [Hfix Hnot]. rewrite Forall_forall in Hfix.
      specialize (Hfix _ (in_map (presence (map category D)) _ _ Hin)).
      unfold presence in Hfix. cbn [fst snd Z3.eval] in Hfix.
      assert (Hdet : Py.str_in (category d) (map category D) = true)
        by (apply str_in_In, in_map, Hd).
      rewrite Hdet in Hfix. apply Bool.eqb_prop in Hfix.
      inversion Hnot as [|? ? Hn _]. simpl in Hn.
      apply negb_true_iff in Hn.
      assert (existsb (Z3.eval m) pd = true); [|congruence].
      apply existsb_exists.
      exists (Z3.Bool (category d ^ "_detected")). split; auto.
    - assert (Hh : Z3.holds (fun _ => false) (Z3.assertions (snd made))
                   = true).
      { apply holds_Forall. rewrite Has. apply Forall_forall.
        intros f Hf. apply in_map_iff in Hf as ([c w] & <- & Hin).
        destruct (category_vars_entries _ D Z3.Solver_new c w Hin)
          as [Hc ->].
        unfold presence. cbn [fst snd Z3.eval].
        assert (Hdet : Py.str_in c (map category D) = false).
        { apply str_in_false. intros Hdet. apply in_map_iff in Hdet.
          destruct Hdet as (d & <- & Hd).
          assert (has_prohibited self D = true); [|congruence].
          apply has_prohibited_true. exists d. split; auto.
          unfold is_prohibited in Hc. now apply str_in_In in Hc. }
        now rewrite Hdet. }
      assert (Hv : existsb (Z3.eval (fun _ => false)) pd = false).
      { destruct (existsb _ pd) eqn:Ex; [|reflexivity].
        apply existsb_exists in Ex as (v & Hvin & Hev).
        unfold pd in Hvin. apply in_map_iff in Hvin as ([c w] & <- & Hin).
        apply filter_In in Hin as [Hin _].
        destruct (category_vars_entries _ D Z3.Solver_new c w Hin)
          as [_ ->].
        discriminate. }
      apply check_sat_iff. exists (fun _ => false).
      destruct (Py.truthy pd); auto.
      rewrite assertions_add. apply holds_Forall, Forall_app. split.
      + now apply holds_Forall.
      + constructor; auto. simpl. now rewrite Hv. }
  split; [exact Hmain|].
  rewrite Hmain, status_of_has_prohibited.
  destruct (has_prohibited self D); split; auto; discriminate.
Qed.

(** ** The violation report on its own *)

Lemma list_set_nil (O : Py.SetOrder) : Py.list_set O [] = [].
Proof.
  destruct (Py.list_set O []) as [|x rest] eqn:E; [reflexivity|].
  exfalso. apply (proj1 (Py.list_set_In O [] x)). rewrite E. now left.
Qed.

Lemma prohibited_detections_none (self : HIPAAVerifier)
    (D : list PHIDetection) :
  has_prohibited self D = false <-> prohibited_detections self D = [].
Proof.
  unfold has_prohibited, prohibited_detections.
  induction D as [|d D IH]; simpl; [tauto|].
  destruct (is_prohibited _ (category d)); simpl; [|exact IH].
  split; discriminate.
Qed.

(** X11.  [create_violation_explanation], called on any detection list:
    the count is the number of records; the categories listed are
    prohibited ones and are no more than the records; the list of
    categories is empty exactly when the count is 0; and a list without a
    prohibited detection gives the empty report. *)
Theorem create_violation_explanation_report (O : Py.SetOrder)
    (self : HIPAAVerifier) (D : list PHIDetection) :
  let report := create_violation_explanation O D (rules self) in
  num_violations report = List.length (Rules.violations report) /\
  (List.length (categories_violated report) <= num_violations report)%nat /\
  (forall c, In c (categories_violated report) ->
             is_prohibited (rules self) c = true) /\
  (categories_violated report = [] <-> num_violations report = 0%nat) /\
  (has_prohibited self D = false <->
   report = {| num_violations := 0; Rules.violations := [];
               categories_violated := [] |}).
Proof.
  intros report. unfold report.
  split; [reflexivity|].
  rewrite explanation_unfold. cbn [num_violations categories_violated].
  assert (Hincl : incl (Py.list_set O (map category
                                         (prohibited_detections self D)))
                       (map category (prohibited_detections self D)))
    by (intros c Hc; now apply Py.list_set_In in Hc).
  split.
  { rewrite <- (length_map category (prohibited_detections self D)).
    apply NoDup_incl_length; [apply Py.list_set_NoDup | exact Hincl]. }
  split.
  { intros c Hc. apply Hincl, in_map_iff in Hc as (d & <- & Hd).
    unfold prohibited_detections in Hd. now apply filter_In in Hd. }
  split.
  { destruct (prohibited_detections self D) as [|d rest] eqn:E.
    - simpl. rewrite list_set_nil. tauto.
    - split; [|discriminate]. intros Hnil. exfalso.
      assert (In (category d) (Py.list_set O (map category (d :: rest))))
        by (apply Py.list_set_In; now left).
      rewrite Hnil in H. destruct H. }
  rewrite prohibited_detections_none. split.
  - intros ->. simpl. now rewrite list_set_nil.
  - intros E. apply (f_equal Rules.violations) in E. cbn in E.
    destruct (prohibited_detections self D); [reflexivity|discriminate].
Qed.

(** ** When [verify_text] answers ERROR *)

(** The objects on which [verify] raises: a list of detections one of
    whose categories cannot be hashed, and any other object but an empty
    string, list or dict. *)
Definition unverifiable (found : Entities) : Prop :=
  match found with
  | Detections ds => forallb (fun d => hashable (raw_category d)) ds = false
  | Other obj => Json.iter obj <> Py.Return []
  end.

Lemma verify_obj_raises_iff (O : Py.SetOrder) (repr : Json.json -> string)
    (self : HIPAAVerifier) (found : Entities) :
  (exists e, verify_obj O repr self found = Py.Raise e) <->
  unverifiable found.
Proof.
  split.
  - intros (e & He). exact (proj2 (proj2 (verify_obj_raises _ _ _ _ _ He))).
  - destruct found as [ds|obj]; cbn [unverifiable]; intros H.
    + destruct (first_failure _ _ H) as (ds1 & d & ds2 & -> & H1 & Hd).
      eexists. exact (verify_obj_unhashable O repr self ds1 ds2 d H1 Hd).
    + pose proof (verify_obj_other O repr self obj) as Ho.
      destruct (Json.iter obj) as [[|d rest]|x]; eauto. now destruct H.
Qed.

Lemma verify_obj_entities (O : Py.SetOrder) (repr : Json.json -> string)
    (self : HIPAAVerifier) (found : Entities) (result : ResultObj) :
  verify_obj O repr self found = Py.Return result ->
  obj_entities result = found.
Proof.
  intros H. destruct found as [ds|obj].
  - destruct (forallb (fun d => hashable (raw_category d)) ds) eqn:Hh.
    + destruct (verify_obj_detections O repr self ds Hh)
        as (r & Hr & He & _).
      congruence.
    + destruct (first_failure _ _ Hh) as (ds1 & d & ds2 & -> & H1 & Hd).
      rewrite (verify_obj_unhashable O repr self ds1 ds2 d H1 Hd) in H.
      discriminate.
  - pose proof (verify_obj_other O repr self obj) as Ho.
    destruct (Json.iter obj) as [[|d rest]|x]; rewrite Ho in H;
      try discriminate.
    now injection H as <-.
Qed.

(** X12.  A result of [verify_text] has status ERROR exactly when no
    extractor was given, or the extractor raised, or the extractor
    returned an object on which [verify] raises; such a result has no
    entities and no violation report and names the failure under "error";
    in the remaining case the result is that of [verify] on the object
    returned, which it carries as its entities. *)
Theorem verify_text_error_iff (O : Py.SetOrder) (repr : Json.json -> string)
    (self : HIPAAVerifier) (text : string)
    (entity_extractor : option Extractor) (result : ResultObj) :
  verify_text O repr self text entity_extractor = Py.Return result ->
  (obj_status result = ERROR <->
   entity_extractor = None \/
   (exists (extractor : Extractor) e,
       entity_extractor = Some extractor /\ extractor text = Py.Raise e) \/
   (exists (extractor : Extractor) found,
       entity_extractor = Some extractor /\
       extractor text = Py.Return found /\
       unverifiable found)) /\
  (obj_status result = ERROR ->
   obj_entities result = Detections [] /\
   obj_report result = None /\
   exists reason, obj_metadata result = [ ("error", reason) ]) /\
  (forall (extractor : Extractor) found,
      entity_extractor = Some extractor ->
      extractor text = Py.Return found ->
      ~ unverifiable found ->
      verify_obj O repr self found = Py.Return result /\
      obj_entities result = found).
Proof.
  intros H. destruct entity_extractor as [extractor|]; cbn [verify_text] in H.
  - destruct (extractor text) as [found|e] eqn:Ex; cbn [Py.bind] in H.
    + destruct (verify_obj O repr self found) as [r|e] eqn:Ev.
      * cbn [Py.try_except_Exception] in H. injection H as <-.
        pose proof (verify_obj_status O repr self found r Ev) as Hne.
        assert (Hun : ~ unverifiable found).
        { intros Hu. apply (verify_obj_raises_iff O repr self) in Hu.
          destruct Hu as (e & He). congruence. }
        split; [|split].
        -- split; [intros E; now destruct Hne|].
           intros [E|[(f & e & E & Hf)|(f & fo & E & Hf & Hu)]];
             [discriminate| |]; injection E as <-; [congruence|].
           rewrite Ex in Hf. injection Hf as <-. now destruct Hun.
        -- intros E. now destruct Hne.
        -- intros f fo E Hf _. injection E as <-.
           rewrite Ex in Hf. injection Hf as <-. split; auto.
           exact (verify_obj_entities O repr self found r Ev).
      * cbn [Py.try_except_Exception] in H.
        rewrite (proj1 (proj2 (verify_obj_raises O repr self found e Ev)))
          in H.
        injection H as <-. cbn. split; [|split].
        -- split; auto. intros _. right. right.
           exists extractor, found. repeat split; auto.
           apply (verify_obj_raises_iff O repr self). eauto.
        -- intros _. eauto.
        -- intros f fo E Hf Hun. injection E as <-.
           rewrite Ex in Hf. injection Hf as <-. destruct Hun.
           apply (verify_obj_raises_iff O repr self). eauto.
    + cbn [Py.try_except_Exception] in H.
      destruct (Py.is_Exception (Py.exn_cls e)); [|discriminate].
      injection H as <-. cbn. split; [|split].
      * split; auto. intros _. right. left. eauto.
      * intros _. eauto.
      * intros f fo E Hf. injection E as <-. congruence.
  - injection H as <-. cbn. split; [|split].
    + split; auto.
    + intros _. eauto.
    + intros f fo E. discriminate.
Qed.

(** An extractor that returns [None]: [verify] raises inside the [try] and
    the answer is an ERROR result. *)
Lemma verify_text_error_iff_witness :
  verify_text insertion_order sample_repr hipaa_verifier "note"
    (Some (fun _ => Py.Return (Other Json.JNull)))
  = Py.Return
      (error_obj
         "Error during verification: 'NoneType' object is not iterable"
         "'NoneType' object is not iterable") /\
  obj_status
    (error_obj "Error during verification: 'NoneType' object is not iterable"
               "'NoneType' object is not iterable") = ERROR /\
  (exists (extractor : Extractor) found,
      Some (fun _ : string => Py.Return (Other Json.JNull)) = Some extractor /\
      extractor "note" = Py.Return found /\
      unverifiable found) /\
  verify_text insertion_order sample_repr hipaa_verifier "note"
    (Some (fun _ => Py.Return (Detections [detection_obj diagnosis])))
  = Py.Return (result_obj (verify insertion_order hipaa_verifier [diagnosis]))
  /\
  obj_entities (result_obj (verify insertion_order hipaa_verifier [diagnosis]))
  = Detections [detection_obj diagnosis].
Proof.
  assert (H1 : verify_text insertion_order sample_repr hipaa_verifier "note"
                 (Some (fun _ => Py.Return (Other Json.JNull)))
               = Py.Return
                   (error_obj
                      "Error during verification: 'NoneType' object is not iterable"
                      "'NoneType' object is not iterable"))
    by reflexivity.
  assert (H2 : verify_text insertion_order sample_repr hipaa_verifier "note"
                 (Some (fun _ => Py.Return
                                   (Detections [detection_obj diagnosis])))
               = Py.Return (result_obj (verify insertion_order hipaa_verifier
                                          [diagnosis])))
    by reflexivity.
  destruct (verify_text_error_iff insertion_order sample_repr hipaa_verifier
              "note" _ _ H1) as (Hiff & _).
  destruct (verify_text_error_iff insertion_order sample_repr hipaa_verifier
              "note" _ _ H2) as (_ & _ & Hok).
  split; [exact H1|]. split; [reflexivity|]. split.
  - destruct (proj1 Hiff eq_refl) as [E|[(f & e & E & Hf)|Hthird]].
    + discriminate.
    + injection E as <-. discriminate.
    + exact Hthird.
  - split; [exact H2|].
    refine (proj2 (Hok (fun _ => Py.Return
                                   (Detections [detection_obj diagnosis]))
                       (Detections [detection_obj diagnosis])
                       eq_refl eq_refl _)).
    cbn. discriminate.
Defined.

(** ** The wire form of a result *)

(** One element of ["entities"] in [to_dict]. *)
Definition detection_to_dict (e : PHIDetection) : Json.json :=
  Json.JDict
    [ ("category", Json.JStr (category e));
      ("value", Json.JStr (value e));
      ("start", Json.JInt (start e));
      ("end", Json.JInt (end_ e));
      ("confidence", Json.JFloat (confidence e)) ].

(** The dictionaries [create_violation_explanation] builds, as the JSON
    values they are: [to_dict] passes [self.violations] on unchanged. *)
Definition rule_ref_dict (r : RuleRef) : Json.json :=
  Json.JDict
    [ ("id", Json.JStr (r_id r));
      ("name", Json.JStr (r_name r));
      ("description", Json.JStr (r_description r)) ].

Definition violation_dict (v : Violation) : Json.json :=
  Json.JDict
    [ ("category", Json.JStr (v_category v));
      ("value", Json.JStr (v_value v));
      ("location",
       Json.JDict [ ("start", Json.JInt (fst (v_location v)));
                    ("end", Json.JInt (snd (v_location v))) ]);
      ("confidence", Json.JFloat (v_confidence v));
      ("violated_rules", Json.JList (map rule_ref_dict (violated_rules v))) ].

Definition report_dict (report : ViolationReport) : Json.json :=
  Json.JDict
    [ ("num_violations", Json.JInt (Z.of_nat (num_violations report)));
      ("violations", Json.JList (map violation_dict (Rules.violations report)));
      ("categories_violated",
       Json.JList (map Json.JStr (categories_violated report))) ].

(** [VerificationResult.to_dict] *)
Definition to_dict (self : VerificationResult) : Json.json :=
  Json.JDict
    [ ("status", Json.JStr (status_value (status self)));
      ("entities", Json.JList (map detection_to_dict (entities self)));
      ("proof", Json.JStr (proof self));
      ("violations", match Verifier.violations self with
                     | Some report => report_dict report
                     | None => Json.JNull
                     end);
      ("metadata",
       Json.JDict (map (fun kv => (fst kv, Json.JStr (snd kv)))
                       (metadata self))) ].

(** A detection as a wire record with every member present. *)
Definition full_record (e : PHIDetection) : WireRecord :=
  {| w_category := category e;
     w_value := Some (value e);
     w_start := Some (start e);
     w_end := Some (end_ e);
     w_confidence := Some (confidence e) |}.

Lemma detection_to_dict_encode (es : list PHIDetection) :
  map detection_to_dict es = map encode (map full_record es) /\
  map with_defaults (map full_record es) = es.
Proof.
  split.
  - rewrite map_map. apply map_ext. reflexivity.
  - rewrite map_map. induction es as [|[c v s n f] es IH]; simpl;
      [reflexivity | now rewrite IH].
Qed.

(** X13.  The wire form of a result is itself a payload for
    [verify_from_json], which verifies the result's entities again; fed
    with the wire form of what [verify] returned, it returns that very
    result. *)
Theorem to_dict_verifies_again (O : Py.SetOrder)
    (repr : Json.json -> string)
    (loads : string -> Py.outcome Json.json) (cfg : Config) :
  (forall r,
      verify_from_json O repr loads cfg (to_dict r) =
        Py.Return (result_obj
                     (verify O (HIPAAVerifier_init cfg) (entities r)))) /\
  (forall D,
      verify_from_json O repr loads cfg
        (to_dict (verify O (HIPAAVerifier_init cfg) D)) =
        Py.Return (result_obj (verify O (HIPAAVerifier_init cfg) D))).
Proof.
  assert (H : forall r,
      verify_from_json O repr loads cfg (to_dict r) =
        Py.Return (result_obj
                     (verify O (HIPAAVerifier_init cfg) (entities r)))).
  { intros r. unfold to_dict.
    erewrite verify_from_json_object by reflexivity.
    cbn [Json.iter Py.bind].
    destruct (detection_to_dict_encode (entities r)) as [-> Hback].
    rewrite comprehension_encode. cbn [Py.bind].
    rewrite Hback. apply verify_obj_typed. }
  split; [exact H|].
  intros D. rewrite H.
  now rewrite (proj1 (verify_result_shape O (HIPAAVerifier_init cfg) D)).
Qed.

Lemma map_injective {A B : Type} (f : A -> B) :
  (forall x y, f x = f y -> x = y) ->
  forall l1 l2, map f l1 = map f l2 -> l1 = l2.
Proof.
  intros Hf. induction l1 as [|x l1 IH]; intros [|y l2] E; simpl in E;
    try discriminate; [reflexivity|].
  injection E as Ex El. f_equal; auto.
Qed.

Lemma detection_to_dict_injective (e1 e2 : PHIDetection) :
  detection_to_dict e1 = detection_to_dict e2 -> e1 = e2.
Proof.
  destruct e1, e2. unfold detection_to_dict. simpl. intros E.
  injection E as -> -> -> -> ->. reflexivity.
Qed.

Lemma rule_ref_dict_injective (r1 r2 : RuleRef) :
  rule_ref_dict r1 = rule_ref_dict r2 -> r1 = r2.
Proof.
  destruct r1, r2. unfold rule_ref_dict. simpl. intros E.
  injection E as -> -> ->. reflexivity.
Qed.

Lemma violation_dict_injective (v1 v2 : Violation) :
  violation_dict v1 = violation_dict v2 -> v1 = v2.
Proof.
  destruct v1 as [c1 x1 [s1 n1] f1 r1], v2 as [c2 x2 [s2 n2] f2 r2].
  unfold violation_dict. simpl. intros E.
  injection E as -> -> -> -> -> Hr.
  apply (map_injective _ rule_ref_dict_injective) in Hr. now subst.
Qed.

Lemma report_dict_injective (p1 p2 : ViolationReport) :
  report_dict p1 = report_dict p2 -> p1 = p2.
Proof.
  destruct p1 as [n1 v1 c1], p2 as [n2 v2 c2].
  unfold report_dict. simpl. intros E. injection E as Hn Hv Hc.
  apply Nat2Z.inj in Hn.
  apply (map_injective _ violation_dict_injective) in Hv.
  apply (map_injective Json.JStr) in Hc; [now subst|].
  intros x y Hxy. now injection Hxy.
Qed.

(** X14.  [to_dict] loses nothing: two results with the same wire form
    are the same result. *)
Theorem to_dict_injective (r1 r2 : VerificationResult) :
  to_dict r1 = to_dict r2 -> r1 = r2.
Proof.
  destruct r1 as [s1 e1 p1 v1 m1], r2 as [s2 e2 p2 v2 m2].
  unfold to_dict. simpl. intros E. injection E as Hs He Hp Hv Hm.
  assert (s1 = s2) by (destruct s1, s2; simpl in Hs; congruence).
  apply (map_injective _ detection_to_dict_injective) in He.
  assert (v1 = v2).
  { destruct v1 as [a|], v2 as [b|]; try discriminate; auto.
    f_equal. now apply report_dict_injective. }
  assert (m1 = m2).
  { revert Hm. apply map_injective. intros [k1 x1] [k2 x2]. simpl.
    intros Hk. now injection Hk as -> ->. }
  now subst.
Qed.

Lemma to_dict_injective_witness :
  to_dict (verify insertion_order hipaa_verifier []) =
  to_dict (verify reversed_order hipaa_verifier []) /\
  verify insertion_order hipaa_verifier [] =
  verify reversed_order hipaa_verifier [].
Proof.
  assert (H : to_dict (verify insertion_order hipaa_verifier []) =
              to_dict (verify reversed_order hipaa_verifier []))
    by reflexivity.
  split; [exact H|]. exact (to_dict_injective _ _ H).
Defined.

(** ** Payloads whose "entities" member is not a list of objects *)

Definition is_object (j : Json.json) : bool :=
  match j with Json.JDict _ => true | _ => false end.

(** X15.  What [verify_from_json] does with an "entities" member that is
    not a list of objects: null, a Boolean or a number is not iterable and
    raises TypeError; a string or an object is iterated, so the empty ones
    are verified as a document without detections and the others raise
    TypeError at the first character or key; and a list is read up to its
    first element that is not an object, where TypeError is raised however
    many well-formed records came before. *)
Theorem verify_from_json_entities_member (O : Py.SetOrder)
    (repr : Json.json -> string)
    (loads : string -> Py.outcome Json.json) (cfg : Config)
    (members : list (string * Json.json)) (source : Json.json) :
  Py.dict_get members "entities" = Some source ->
  (is_scalar source = true ->
   verify_from_json O repr loads cfg (Json.JDict members) =
     Py.Raise (Py.Exn Py.TypeError
                 ("'" ^ Json.type_name source ^ "' object is not iterable"))) /\
  (source = Json.JStr "" \/ source = Json.JDict [] ->
   verify_from_json O repr loads cfg (Json.JDict members) =
     Py.Return (result_obj (verify O (HIPAAVerifier_init cfg) []))) /\
  ((exists ch s, source = Json.JStr (String ch s)) \/
   (exists kv kvs, source = Json.JDict (kv :: kvs)) ->
   verify_from_json O repr loads cfg (Json.JDict members) =
     Py.Raise (Py.Exn Py.TypeError "string indices must be integers")) /\
  (forall ws item rest,
      source = Json.JList (map encode ws ++ item :: rest) ->
      is_object item = false ->
      exists message,
        verify_from_json O repr loads cfg (Json.JDict members) =
          Py.Raise (Py.Exn Py.TypeError message)).
Proof.
  intros Hm.
  rewrite (verify_from_json_object O repr loads cfg members source Hm).
  split; [|split; [|split]].
  - intros Hs. destruct source; try discriminate; reflexivity.
  - intros [->| ->]; cbn [Json.iter Json.chars map Py.bind comprehension];
      exact (verify_obj_typed O repr (HIPAAVerifier_init cfg) []).
  - intros [(ch & s & ->)|([k v] & kvs & ->)]; reflexivity.
  - intros ws item rest -> Hi. cbn [Json.iter Py.bind].
    assert (Hr : exists message,
               raw_detection item = Py.Raise (Py.Exn Py.TypeError message)).
    { destruct item; try discriminate; unfold raw_detection; simpl; eauto. }
    destruct Hr as (message & Hr). exists message.
    now rewrite (comprehension_stops _ (map encode ws) rest item _
                   (read_records_encode ws) Hr).
Qed.

Lemma verify_from_json_entities_member_witness :
  verify_from_json insertion_order sample_repr loads_nothing hipaa_v1
    (Json.JDict [ ("entities", Json.JNull) ]) =
    Py.Raise (Py.Exn Py.TypeError "'NoneType' object is not iterable") /\
  verify_from_json insertion_order sample_repr loads_nothing hipaa_v1
    (Json.JDict [ ("entities", Json.JDict []) ]) =
    Py.Return (result_obj (verify insertion_order hipaa_verifier [])) /\
  verify_from_json insertion_order sample_repr loads_nothing hipaa_v1
    (Json.JDict [ ("entities", Json.JStr "NAMES") ]) =
    Py.Raise (Py.Exn Py.TypeError "string indices must be integers") /\
  exists message,
    verify_from_json insertion_order sample_repr loads_nothing hipaa_v1
      (Json.JDict [ ("entities",
                     Json.JList [ encode names_only; Json.JInt 7 ]) ]) =
      Py.Raise (Py.Exn Py.TypeError message).
Proof.
  split; [|split; [|split]].
  - exact (proj1 (verify_from_json_entities_member insertion_order
                    sample_repr loads_nothing hipaa_v1
                    [ ("entities", Json.JNull) ] Json.JNull eq_refl) eq_refl).
  - destruct (verify_from_json_entities_member insertion_order
                sample_repr loads_nothing hipaa_v1
                [ ("entities", Json.JDict []) ] (Json.JDict []) eq_refl)
      as (_ & H & _).
    apply H. now right.
  - destruct (verify_from_json_entities_member insertion_order
                sample_repr loads_nothing hipaa_v1
                [ ("entities", Json.JStr "NAMES") ] (Json.JStr "NAMES")
                eq_refl)
      as (_ & _ & H & _).
    apply H. left. eauto.
  - destruct (verify_from_json_entities_member insertion_order
                sample_repr loads_nothing hipaa_v1
                [ ("entities",
                   Json.JList [ encode names_only; Json.JInt 7 ]) ]
                (Json.JList [ encode names_only; Json.JInt 7 ]) eq_refl)
      as (_ & _ & _ & H).
    exact (H [ names_only ] (Json.JInt 7) [] eq_refl eq_refl).
Defined.
